(** * PPlab1: a small electronics store (EStore)

    A shallow embedding of [PPlab1_Basharov.py]: the classes [Product],
    [Worker], [Customer], [Warehouse], [Order] and [EStore], the exception
    classes, the two exporters and the driver script.

    Python objects that the program mutates and shares live in an explicit
    heap and are named by their address:
    - [Product] objects: the warehouse lists and the orders hold references to
      the same object, and [update_product] and [process_order] assign to its
      attributes;
    - the [list] objects behind [Warehouse.products] and [Warehouse.workers]:
      [get_products] hands out the list object itself;
    - the [Element] objects that [save_to_xml] builds: [SubElement] appends to
      a parent that is already part of the tree.
    The heap also holds the files written by the exporters.  No method
    assigns to an attribute of a [Worker], a [Customer] or an [Order], so
    these are embedded by value, and an [EStore] is threaded through its own
    methods as a value.

    [int] is [Z], [float] is the binary64 type of the kernel, [str] is
    [string] (the UTF-8 bytes of the text). *)

From Stdlib Require Import ZArith Floats.PrimFloat DecimalString DecimalPos DecimalZ.
From stdpp Require Import gmap strings list fin_maps.

Set Warnings "-register-all".

(** ** Python values written by the record exporter *)

(** The value bound to [data] in [save_to_json]: dictionaries keep the
    insertion order of their keys. *)
Inductive pyval :=
| PyStr (s : string)
| PyInt (z : Z)
| PyFloat (f : float)
| PyList (l : list pyval)
| PyDict (d : list (string * pyval)).

(** [list(d.keys())] *)
Definition dict_keys (d : list (string * pyval)) : list string := d.*1.

(** [str(n)] for an [int]: the decimal digits, with a leading minus sign for
    negative numbers. *)
Definition str (n : Z) : string := NilZero.string_of_int (Z.to_int n).

(** ** Addresses *)

Definition loc := positive.

(** ** Exceptions *)

(** [StoreError] and its three subclasses, and the builtin [ValueError] that
    [list.remove] raises when the element is absent. *)
Inductive exn :=
| StoreError (msg : string)
| ProductNotFoundError (msg : string)
| InsufficientStockError (msg : string)
| InvalidOrderError (msg : string)
| ValueError (msg : string).

(** [isinstance(e, StoreError)] *)
Definition is_StoreError (e : exn) : bool :=
  match e with
  | ValueError _ => false
  | _ => true
  end.

Inductive result (A : Type) :=
| Return (a : A)
| Raise (e : exn).
Arguments Return {A} a.
Arguments Raise {A} e.

(** ** Leaf classes *)

Module Product.
Record t := mk { name : string; price : float; quantity : Z }.

Definition with_price (p : t) (x : float) : t :=
  {| name := name p; price := x; quantity := quantity p |}.
Definition with_quantity (p : t) (q : Z) : t :=
  {| name := name p; price := price p; quantity := q |}.
End Product.

Module Worker.
Record t := mk { name : string; role : string }.
End Worker.

Module Customer.
Record t := mk { name : string; email : string }.
End Customer.

(** ** The element tree built by the markup exporter *)

(** An [Element] object of [xml.etree.ElementTree]: the attributes in the
    order of the keyword arguments, and references to the child elements. *)
Record ElementObj := mkElement {
  tag : string;
  attrib : list (string * string);
  children : list loc
}.

(** The tree that is read off the element objects when the document is
    written. *)
Inductive xml_tree :=
| Node (tag : string) (attrib : list (string * string)) (children : list xml_tree).

Definition node_tag (t : xml_tree) : string := let 'Node g _ _ := t in g.
Definition node_attrib (t : xml_tree) : list (string * string) := let 'Node _ a _ := t in a.
Definition node_children (t : xml_tree) : list xml_tree := let 'Node _ _ c := t in c.

(** All the tags of a tree, root first. *)
Fixpoint tags (t : xml_tree) : list string :=
  let 'Node g _ cs := t in g :: concat (map tags cs).

(** ** Heap *)

(** What a file holds after an export: the value handed to [json.dump], or
    the tree handed to [ElementTree.write].  The byte-level serialisation is
    done by the Python standard library. *)
Inductive document :=
| JsonDoc (data : pyval)
| XmlDoc (root : xml_tree).

Record Heap := mkHeap {
  objs : gmap loc Product.t;          (* Product objects *)
  plists : gmap loc (list loc);       (* list objects holding Product references *)
  wlists : gmap loc (list Worker.t);  (* list objects holding Workers *)
  elems : gmap loc ElementObj;        (* Element objects of xml.etree *)
  files : gmap string document        (* the file system, by file name *)
}.

Definition empty_heap : Heap :=
  {| objs := ∅; plists := ∅; wlists := ∅; elems := ∅; files := ∅ |}.

Definition set_objs (f : gmap loc Product.t → gmap loc Product.t) (h : Heap) : Heap :=
  {| objs := f (objs h); plists := plists h; wlists := wlists h;
     elems := elems h; files := files h |}.
Definition set_plists (f : gmap loc (list loc) → gmap loc (list loc)) (h : Heap) : Heap :=
  {| objs := objs h; plists := f (plists h); wlists := wlists h;
     elems := elems h; files := files h |}.
Definition set_wlists (f : gmap loc (list Worker.t) → gmap loc (list Worker.t)) (h : Heap) : Heap :=
  {| objs := objs h; plists := plists h; wlists := f (wlists h);
     elems := elems h; files := files h |}.
Definition set_elems (f : gmap loc ElementObj → gmap loc ElementObj) (h : Heap) : Heap :=
  {| objs := objs h; plists := plists h; wlists := wlists h;
     elems := f (elems h); files := files h |}.
Definition set_files (f : gmap string document → gmap string document) (h : Heap) : Heap :=
  {| objs := objs h; plists := plists h; wlists := wlists h;
     elems := elems h; files := f (files h) |}.

(** ** The computation monad

    A method call takes the heap and either returns a value or raises, with
    the heap it leaves behind.  [None] means that a reference had no object
    in the heap: no Python execution corresponds to it. *)
Definition M (A : Type) : Type := Heap → option (result A * Heap).

Definition ret {A} (a : A) : M A := λ h, Some (Return a, h).
Definition raise {A} (e : exn) : M A := λ h, Some (Raise e, h).
Definition bind {A B} (m : M A) (k : A → M B) : M B :=
  λ h, match m h with
       | Some (Return a, h') => k a h'
       | Some (Raise e, h') => Some (Raise e, h')
       | None => None
       end.

Notation "x <- m ;; k" := (bind m (λ x, k))
  (at level 100, m at next level, right associativity).
Notation "m ;;; k" := (bind m (λ _, k))
  (at level 100, right associativity).

(** The exception a call ended with, if any. *)
Definition raised {A} (r : option (result A * Heap)) : option exn :=
  match r with
  | Some (Raise e, _) => Some e
  | _ => None
  end.

(** *** Attribute access on Product objects *)

Definition getattr {A} (p : loc) (field : Product.t → A) : M A :=
  λ h, match objs h !! p with
       | Some o => Some (Return (field o), h)
       | None => None
       end.

Definition setattr (p : loc) (upd : Product.t → Product.t) : M unit :=
  λ h, match objs h !! p with
       | Some o => Some (Return tt, set_objs <[p := upd o]> h)
       | None => None
       end.

(** [Product(name, price, quantity)] allocates a new object ([quantity] is 0
    when the caller leaves it out). *)
Definition new_product (o : Product.t) : M loc :=
  λ h, let p := fresh (dom (objs h)) in Some (Return p, set_objs <[p := o]> h).

(** *** List objects *)

Definition list_new : M loc :=
  λ h, let l := fresh (dom (plists h)) in Some (Return l, set_plists <[l := []]> h).

(** The elements of a list object, as iteration sees them. *)
Definition list_items (l : loc) : M (list loc) :=
  λ h, match plists h !! l with
       | Some xs => Some (Return xs, h)
       | None => None
       end.

Definition list_store (l : loc) (xs : list loc) : M unit :=
  λ h, match plists h !! l with
       | Some _ => Some (Return tt, set_plists <[l := xs]> h)
       | None => None
       end.

(** [l.append(x)] *)
Definition list_append (l : loc) (x : loc) : M unit :=
  xs <- list_items l ;; list_store l (xs ++ [x]).

(** Dropping the first element equal to [x]; Products define no [__eq__], so
    equality of two Products is identity of the objects. *)
Fixpoint remove_first (x : loc) (xs : list loc) : option (list loc) :=
  match xs with
  | [] => None
  | y :: ys => if decide (y = x) then Some ys else (y ::.) <$> remove_first x ys
  end.

(** [l.remove(x)] *)
Definition list_remove (l : loc) (x : loc) : M unit :=
  xs <- list_items l ;;
  match remove_first x xs with
  | Some xs' => list_store l xs'
  | None => raise (ValueError "list.remove(x): x not in list")
  end.

Definition wlist_new : M loc :=
  λ h, let l := fresh (dom (wlists h)) in Some (Return l, set_wlists <[l := []]> h).

Definition wlist_items (l : loc) : M (list Worker.t) :=
  λ h, match wlists h !! l with
       | Some xs => Some (Return xs, h)
       | None => None
       end.

Definition wlist_append (l : loc) (x : Worker.t) : M unit :=
  λ h, match wlists h !! l with
       | Some xs => Some (Return tt, set_wlists <[l := xs ++ [x]]> h)
       | None => None
       end.

(** [[f(x) for x in xs]] where [f] reads the heap. *)
Fixpoint comprehension {A B} (f : A → M B) (xs : list A) : M (list B) :=
  match xs with
  | [] => ret []
  | x :: xs' => y <- f x ;; ys <- comprehension f xs' ;; ret (y :: ys)
  end.

(** ** Warehouse *)

Module Warehouse.
(** [products] and [workers] are the addresses of the two list objects made
    by [__init__]. *)
Record t := mk { location : string; products : loc; workers : loc }.

Definition __init__ (location : string) : M t :=
  ps <- list_new ;; ws <- wlist_new ;; ret (mk location ps ws).

Definition add_product (self : t) (product : loc) : M unit :=
  list_append (products self) product.

Definition get_products (self : t) : M loc :=
  ret (products self).

(** The loop of [update_product] over the products still to visit. *)
Fixpoint update_product_loop (todo : list loc) (name : string) (new_price : float) : M unit :=
  match todo with
  | [] => raise (ProductNotFoundError ("Товар '" +:+ name +:+ "' не найден"))
  | p :: todo' =>
      p_name <- getattr p Product.name ;;
      if decide (p_name = name)
      then setattr p (λ o, Product.with_price o new_price)
      else update_product_loop todo' name new_price
  end.

Definition update_product (self : t) (name : string) (new_price : float) : M unit :=
  ps <- list_items (products self) ;;
  update_product_loop ps name new_price.

(** The loop of [remove_product]; it returns right after the removal, so
    the list is never iterated after it has changed. *)
Fixpoint remove_product_loop (self : t) (todo : list loc) (name : string) : M unit :=
  match todo with
  | [] => raise (ProductNotFoundError ("Товар '" +:+ name +:+ "' не найден"))
  | p :: todo' =>
      p_name <- getattr p Product.name ;;
      if decide (p_name = name)
      then list_remove (products self) p
      else remove_product_loop self todo' name
  end.

Definition remove_product (self : t) (name : string) : M unit :=
  ps <- list_items (products self) ;;
  remove_product_loop self ps name.

Definition add_worker (self : t) (worker : Worker.t) : M unit :=
  wlist_append (workers self) worker.
End Warehouse.

(** ** Order *)

Module Order.
Record t := mk { customer : Customer.t; product : loc; quantity : Z }.

Definition __init__ (customer : Customer.t) (product : loc) (quantity : Z) : M t :=
  ret (mk customer product quantity).

Definition process_order (self : t) : M unit :=
  stock <- getattr (product self) Product.quantity ;;
  if (quantity self >? stock)%Z
  then
    p_name <- getattr (product self) Product.name ;;
    raise (InsufficientStockError ("Недостаточно товара " +:+ p_name))
  else
    setattr (product self) (λ o, Product.with_quantity o (Product.quantity o - quantity self)%Z).
End Order.

(** ** The xml.etree.ElementTree functions the exporter calls *)

Module ET.
(** [ET.Element(tag, **extra)] *)
Definition Element (tag : string) (extra : list (string * string)) : M loc :=
  λ h, let e := fresh (dom (elems h)) in
       Some (Return e, set_elems <[e := mkElement tag extra []]> h).

(** [parent.append(e)] *)
Definition append (parent e : loc) : M unit :=
  λ h, match elems h !! parent with
       | Some o => Some (Return tt,
                         set_elems <[parent := mkElement (tag o) (attrib o) (children o ++ [e])]> h)
       | None => None
       end.

(** [ET.SubElement(parent, tag, **extra)]: makes the element, appends it to
    the parent and returns it. *)
Definition SubElement (parent : loc) (tag : string) (extra : list (string * string)) : M loc :=
  e <- Element tag extra ;; append parent e ;;; ret e.

(** The serialiser walks the element objects recursively; [depth] bounds the
    recursion. *)
Fixpoint read_tree (depth : nat) (e : loc) : M xml_tree :=
  match depth with
  | O => λ _, None
  | S depth' =>
      λ h, match elems h !! e with
           | Some o =>
               (cs <- comprehension (read_tree depth') (children o) ;;
                ret (Node (tag o) (attrib o) cs)) h
           | None => None
           end
  end.

(** [sys.getrecursionlimit()] *)
Definition recursion_limit : nat := 1000.

(** [ET.ElementTree(root).write(filename, encoding="utf-8", xml_declaration=True)] *)
Definition write (root : loc) (filename : string) : M unit :=
  doc <- read_tree recursion_limit root ;;
  λ h, Some (Return tt, set_files <[filename := XmlDoc doc]> h).
End ET.

(** [json.dump(data, f, ensure_ascii=False, indent=4)] on a file opened for
    writing under [filename]. *)
Definition json_dump (data : pyval) (filename : string) : M unit :=
  λ h, Some (Return tt, set_files <[filename := JsonDoc data]> h).

(** ** EStore *)

Module EStore.
Record t := mk {
  name : string;
  warehouses : list Warehouse.t;
  customers : list Customer.t;
  orders : list Order.t;
  workers : list Worker.t
}.

Definition __init__ (name : string) : M t :=
  ret (mk name [] [] [] []).

Definition add_warehouse (self : t) (warehouse : Warehouse.t) : M t :=
  ret (mk (name self) (warehouses self ++ [warehouse]) (customers self) (orders self) (workers self)).

Definition add_customer (self : t) (customer : Customer.t) : M t :=
  ret (mk (name self) (warehouses self) (customers self ++ [customer]) (orders self) (workers self)).

Definition add_order (self : t) (order : Order.t) : M t :=
  ret (mk (name self) (warehouses self) (customers self) (orders self ++ [order]) (workers self)).

Definition add_worker (self : t) (worker : Worker.t) : M t :=
  ret (mk (name self) (warehouses self) (customers self) (orders self) (workers self ++ [worker])).

(** [{"name": p.name, "price": p.price, "quantity": p.quantity}] *)
Definition product_entry (p : loc) : M pyval :=
  p_name <- getattr p Product.name ;;
  p_price <- getattr p Product.price ;;
  p_quantity <- getattr p Product.quantity ;;
  ret (PyDict [("name", PyStr p_name); ("price", PyFloat p_price); ("quantity", PyInt p_quantity)]).

Definition worker_entry (wr : Worker.t) : pyval :=
  PyDict [("name", PyStr (Worker.name wr)); ("role", PyStr (Worker.role wr))].

Definition warehouse_entry (w : Warehouse.t) : M pyval :=
  ps <- list_items (Warehouse.products w) ;;
  products <- comprehension product_entry ps ;;
  wrs <- wlist_items (Warehouse.workers w) ;;
  ret (PyDict [("location", PyStr (Warehouse.location w));
               ("products", PyList products);
               ("workers", PyList (map worker_entry wrs))]).

Definition customer_entry (c : Customer.t) : pyval :=
  PyDict [("name", PyStr (Customer.name c)); ("email", PyStr (Customer.email c))].

Definition order_entry (o : Order.t) : M pyval :=
  p_name <- getattr (Order.product o) Product.name ;;
  ret (PyDict [("customer", PyStr (Customer.name (Order.customer o)));
               ("product", PyStr p_name);
               ("quantity", PyInt (Order.quantity o))]).

Definition save_to_json (self : t) (filename : string) : M unit :=
  ws <- comprehension warehouse_entry (warehouses self) ;;
  os <- comprehension order_entry (orders self) ;;
  let data := PyDict [("name", PyStr (name self));
                      ("warehouses", PyList ws);
                      ("customers", PyList (map customer_entry (customers self)));
                      ("orders", PyList os)] in
  json_dump data filename.

Section Xml.
(** [str(x)] for a [float]: the shortest repr of the binary64 value, computed
    by the interpreter. *)
Variable str_float : float → string.

(** The inner loop of [save_to_xml], over the products of one warehouse. *)
Fixpoint product_elements (w_el : loc) (ps : list loc) : M unit :=
  match ps with
  | [] => ret tt
  | p :: ps' =>
      p_name <- getattr p Product.name ;;
      p_price <- getattr p Product.price ;;
      p_quantity <- getattr p Product.quantity ;;
      ET.SubElement w_el "product"
        [("name", p_name); ("price", str_float p_price); ("quantity", str p_quantity)] ;;;
      product_elements w_el ps'
  end.

(** The outer loop of [save_to_xml], over the warehouses. *)
Fixpoint warehouse_elements (root : loc) (ws : list Warehouse.t) : M unit :=
  match ws with
  | [] => ret tt
  | w :: ws' =>
      w_el <- ET.SubElement root "warehouse" [("location", Warehouse.location w)] ;;
      ps <- list_items (Warehouse.products w) ;;
      product_elements w_el ps ;;;
      warehouse_elements root ws'
  end.

Definition save_to_xml (self : t) (filename : string) : M unit :=
  root <- ET.Element "estore" [("name", name self)] ;;
  warehouse_elements root (warehouses self) ;;;
  ET.write root filename.
End Xml.
End EStore.

(** ** The driver

    The script under [if __name__ == "__main__"], without its prints: it
    builds a store, fulfils one order and writes both exports. *)

(** [try: m except StoreError: pass] *)
Definition try_except_StoreError (m : M unit) : M unit :=
  λ h, match m h with
       | Some (Raise e, h') => if is_StoreError e then Some (Return tt, h') else Some (Raise e, h')
       | r => r
       end.

Definition main (str_float : float → string) : M EStore.t :=
  store <- EStore.__init__ "TechStore" ;;
  warehouse <- Warehouse.__init__ "Москва" ;;
  laptop <- new_product (Product.mk "Ноутбук" 75000%float 10) ;;
  phone <- new_product (Product.mk "Смартфон" 45000%float 15) ;;
  Warehouse.add_product warehouse laptop ;;;
  Warehouse.add_product warehouse phone ;;;
  Warehouse.add_worker warehouse (Worker.mk "Иван" "менеджер склада") ;;;
  store <- EStore.add_warehouse store warehouse ;;
  let customer := Customer.mk "Петр" "petr@mail.ru" in
  store <- EStore.add_customer store customer ;;
  order <- Order.__init__ customer laptop 1 ;;
  store <- EStore.add_order store order ;;
  try_except_StoreError (Order.process_order order) ;;;
  EStore.save_to_json store "estore_data.json" ;;;
  EStore.save_to_xml str_float store "estore_data.xml" ;;;
  ret store.

(** * Definitions for the statements *)

(** ** Reading the heap *)

(** The quantity in stock of the Product object at [p]. *)
Definition stock (h : Heap) (p : loc) : option Z :=
  Product.quantity <$> objs h !! p.

(** The Product object at [l] exists and is not called [n]. *)
Definition other_name (h : Heap) (n : string) (l : loc) : Prop :=
  ∃ o, objs h !! l = Some o ∧ Product.name o ≠ n.

(** The Product objects a warehouse holds, read through its list. *)
Definition products_of (h : Heap) (w : Warehouse.t) : option (list Product.t) :=
  refs ← plists h !! Warehouse.products w; mapM (λ r, objs h !! r) refs.

(** The location and the products of each warehouse, in order. *)
Definition snapshot (h : Heap) (ws : list Warehouse.t) : option (list (string * list Product.t)) :=
  mapM (λ w, (λ ps, (Warehouse.location w, ps)) <$> products_of h w) ws.

(** Location, products and workers of each warehouse, in order. *)
Definition warehouse_records (h : Heap) (ws : list Warehouse.t)
    : option (list (string * list Product.t * list Worker.t)) :=
  mapM (λ w, ps ← products_of h w;
             wrs ← wlists h !! Warehouse.workers w;
             Some (Warehouse.location w, ps, wrs)) ws.

(** Customer name, product name and quantity of each order, in order. *)
Definition order_records (h : Heap) (os : list Order.t) : option (list (string * string * Z)) :=
  mapM (λ o, p ← objs h !! Order.product o;
             Some (Customer.name (Order.customer o), Product.name p, Order.quantity o)) os.

(** Only the element store differs. *)
Definition same_data (h h' : Heap) : Prop :=
  objs h' = objs h ∧ plists h' = plists h ∧ wlists h' = wlists h ∧ files h' = files h.

(** Every element object other than [x] is still there, unchanged. *)
Definition kept_except (x : loc) (E E' : gmap loc ElementObj) : Prop :=
  ∀ l e, l ≠ x → E !! l = Some e → E' !! l = Some e.

(** ** Callers *)

(** The message of [ProductNotFoundError]. *)
Definition not_found_msg (n : string) : string := "Товар '" +:+ n +:+ "' не найден".

(** Fulfilling the same order twice in a row. *)
Definition process_order_twice (o : Order.t) : M unit :=
  Order.process_order o ;;; Order.process_order o.

(** [for p in ps: self.add_product(p)] *)
Fixpoint add_all (w : Warehouse.t) (ps : list loc) : M unit :=
  match ps with
  | [] => ret tt
  | p :: ps' => Warehouse.add_product w p ;;; add_all w ps'
  end.

(** ** Two statements of the specification that the code does not meet *)

(** The double decrement under the condition [2q ≤ s] alone. *)
Definition double_decrement_claim (h : Heap) (o : Order.t) (p : Product.t) : Prop :=
  objs h !! Order.product o = Some p →
  (2 * Order.quantity o ≤ Product.quantity p)%Z →
  ∃ h1 h2,
    Order.process_order o h = Some (Return tt, h1)
    ∧ Order.process_order o h1 = Some (Return tt, h2)
    ∧ stock h2 (Order.product o) = Some (Product.quantity p - 2 * Order.quantity o)%Z.

(** A caller that takes the view and then changes it with [mutate] leaves the
    warehouse's own product list as it was. *)
Definition view_is_isolated (h : Heap) (w : Warehouse.t) (mutate : loc → M unit) : Prop :=
  ∀ view h1 r h2,
    Warehouse.get_products w h = Some (Return view, h1) →
    mutate view h1 = Some (r, h2) →
    plists h2 !! Warehouse.products w = plists h !! Warehouse.products w.

(** ** The two documents, as the specification describes them *)

Section XmlDocument.
Variable str_float : float → string.

(** A root carrying the store's name, a child per warehouse carrying its
    location, a grandchild per product carrying name, price and quantity, the
    last two as text. *)
Definition product_node (p : Product.t) : xml_tree :=
  Node "product"
    [("name", Product.name p);
     ("price", str_float (Product.price p));
     ("quantity", str (Product.quantity p))] [].

Definition warehouse_node (w : string * list Product.t) : xml_tree :=
  Node "warehouse" [("location", w.1)] (map product_node w.2).

Definition store_node (name : string) (ws : list (string * list Product.t)) : xml_tree :=
  Node "estore" [("name", name)] (map warehouse_node ws).

(** The element objects behind those nodes. *)
Definition product_obj (p : Product.t) : ElementObj :=
  mkElement "product"
    [("name", Product.name p);
     ("price", str_float (Product.price p));
     ("quantity", str (Product.quantity p))] [].

Definition is_warehouse_el (E : gmap loc ElementObj) (c : loc) (w : string * list Product.t) : Prop :=
  ∃ pcs, E !! c = Some (mkElement "warehouse" [("location", w.1)] pcs)
         ∧ Forall2 (λ pc p, E !! pc = Some (product_obj p)) pcs w.2.
End XmlDocument.

(** The record tree: [name], [warehouses], [customers], [orders]. *)
Definition product_record (p : Product.t) : pyval :=
  PyDict [("name", PyStr (Product.name p));
          ("price", PyFloat (Product.price p));
          ("quantity", PyInt (Product.quantity p))].

Definition worker_record (wr : Worker.t) : pyval :=
  PyDict [("name", PyStr (Worker.name wr)); ("role", PyStr (Worker.role wr))].

Definition warehouse_record (w : string * list Product.t * list Worker.t) : pyval :=
  PyDict [("location", PyStr w.1.1);
          ("products", PyList (map product_record w.1.2));
          ("workers", PyList (map worker_record w.2))].

Definition customer_record (c : Customer.t) : pyval :=
  PyDict [("name", PyStr (Customer.name c)); ("email", PyStr (Customer.email c))].

Definition order_record (o : string * string * Z) : pyval :=
  PyDict [("customer", PyStr o.1.1); ("product", PyStr o.1.2); ("quantity", PyInt o.2)].

Definition store_record (name : string)
    (ws : list (string * list Product.t * list Worker.t))
    (cs : list Customer.t) (os : list (string * string * Z)) : pyval :=
  PyDict [("name", PyStr name);
          ("warehouses", PyList (map warehouse_record ws));
          ("customers", PyList (map customer_record cs));
          ("orders", PyList (map order_record os))].

(** ** Calls and the exceptions they end with *)

(** Every constructor and method of the program, with its arguments. *)
Inductive call :=
| Product_init (name : string) (price : float) (quantity : Z)
| Warehouse_init (location : string)
| Warehouse_add_product (self : Warehouse.t) (product : loc)
| Warehouse_get_products (self : Warehouse.t)
| Warehouse_update_product (self : Warehouse.t) (name : string) (new_price : float)
| Warehouse_remove_product (self : Warehouse.t) (name : string)
| Warehouse_add_worker (self : Warehouse.t) (worker : Worker.t)
| Order_init (customer : Customer.t) (product : loc) (quantity : Z)
| Order_process_order (self : Order.t)
| EStore_init (name : string)
| EStore_add_warehouse (self : EStore.t) (warehouse : Warehouse.t)
| EStore_add_customer (self : EStore.t) (customer : Customer.t)
| EStore_add_order (self : EStore.t) (order : Order.t)
| EStore_add_worker (self : EStore.t) (worker : Worker.t)
| EStore_save_to_json (self : EStore.t) (filename : string)
| EStore_save_to_xml (self : EStore.t) (filename : string).

(** The exception the call ends with on heap [h], if it raises. *)
Definition exception_of (str_float : float → string) (c : call) (h : Heap) : option exn :=
  match c with
  | Product_init n x q => raised (new_product (Product.mk n x q) h)
  | Warehouse_init l => raised (Warehouse.__init__ l h)
  | Warehouse_add_product w p => raised (Warehouse.add_product w p h)
  | Warehouse_get_products w => raised (Warehouse.get_products w h)
  | Warehouse_update_product w n x => raised (Warehouse.update_product w n x h)
  | Warehouse_remove_product w n => raised (Warehouse.remove_product w n h)
  | Warehouse_add_worker w wr => raised (Warehouse.add_worker w wr h)
  | Order_init c p q => raised (Order.__init__ c p q h)
  | Order_process_order o => raised (Order.process_order o h)
  | EStore_init n => raised (EStore.__init__ n h)
  | EStore_add_warehouse s w => raised (EStore.add_warehouse s w h)
  | EStore_add_customer s c => raised (EStore.add_customer s c h)
  | EStore_add_order s o => raised (EStore.add_order s o h)
  | EStore_add_worker s wr => raised (EStore.add_worker s wr h)
  | EStore_save_to_json s f => raised (EStore.save_to_json s f h)
  | EStore_save_to_xml s f => raised (EStore.save_to_xml str_float s f h)
  end.

(** Whatever [m] raises satisfies [P]. *)
Definition raises_only {A} (P : exn → Prop) (m : M A) : Prop :=
  ∀ h e, raised (m h) = Some e → P e.

Definition not_invalid_order (e : exn) : Prop := ∀ msg, e ≠ InvalidOrderError msg.

(** What each call may raise. *)
Definition may_raise (c : call) (e : exn) : Prop :=
  match c with
  | Warehouse_update_product _ n _ => e = ProductNotFoundError (not_found_msg n)
  | Warehouse_remove_product _ n => e = ProductNotFoundError (not_found_msg n)
  | Order_process_order _ =>
      ∃ p_name, e = InsufficientStockError ("Недостаточно товара " +:+ p_name)
  | _ => False
  end.

(** ** Sample data *)

Definition laptop : Product.t := Product.mk "Laptop" 75000%float 10.
Definition phone : Product.t := Product.mk "Phone" 45000%float 15.
Definition petr : Customer.t := Customer.mk "Petr" "petr@mail.ru".
Definition ivan : Worker.t := Worker.mk "Ivan" "warehouse manager".
Definition moscow : Warehouse.t := Warehouse.mk "Moscow" 1%positive 1%positive.

(** The scenario of the specification: the laptop, 10 units in stock, is the
    only product of the warehouse. *)
Definition laptop_heap : Heap :=
  {| objs := {[ 1%positive := laptop ]};
     plists := {[ 1%positive := [1%positive] ]};
     wlists := {[ 1%positive := [] ]};
     elems := ∅; files := ∅ |}.

(** The warehouse list holds the laptop, the phone, and the laptop object
    once more. *)
Definition shelf_heap : Heap :=
  {| objs := {[ 1%positive := laptop; 2%positive := phone ]};
     plists := {[ 1%positive := [1%positive; 2%positive; 1%positive] ]};
     wlists := {[ 1%positive := [] ]};
     elems := ∅; files := ∅ |}.

(** One warehouse with the laptop and the phone and one worker; the store has
    a customer and his order for one laptop. *)
Definition demo_heap : Heap :=
  {| objs := {[ 1%positive := laptop; 2%positive := phone ]};
     plists := {[ 1%positive := [1%positive; 2%positive] ]};
     wlists := {[ 1%positive := [ivan] ]};
     elems := ∅; files := ∅ |}.
Definition demo_store : EStore.t :=
  EStore.mk "TechStore" [moscow] [petr] [Order.mk petr 1%positive 1] [ivan].

(** A product whose stock is recorded as [-2], and an order for [-1] units. *)
Definition owed : Product.t := Product.mk "Laptop" 75000%float (-2).
Definition owed_heap : Heap :=
  {| objs := {[ 1%positive := owed ]}; plists := ∅; wlists := ∅; elems := ∅; files := ∅ |}.
Definition give_back : Order.t := Order.mk petr 1%positive (-1).

(** A stand-in for [str] on floats, right on the prices of the sample data. *)
Definition demo_str_float (x : float) : string :=
  if PrimFloat.eqb x 75000%float then "75000.0"
  else if PrimFloat.eqb x 45000%float then "45000.0"
  else "nan".

(** ** Further callers and sample data *)

(** [for o in orders: o.process_order()] *)
Fixpoint process_all (os : list Order.t) : M unit :=
  match os with
  | [] => ret tt
  | o :: os' => Order.process_order o ;;; process_all os'
  end.

(** The units a list of orders asks for. *)
Definition total_quantity (os : list Order.t) : Z :=
  foldr (λ o acc, (Order.quantity o + acc)%Z) 0%Z os.

(** The products behind [refs] once the object at [l] has become [v]. *)
Definition products_after (l : loc) (v : Product.t) (refs : list loc) (old : list Product.t)
    : list Product.t :=
  zip_with (λ r o, if decide (r = l) then v else o) refs old.

(** The laptop in the warehouse list, and a phone object not yet in it. *)
Definition laptop_heap_with_phone : Heap :=
  {| objs := {[ 1%positive := laptop; 2%positive := phone ]};
     plists := {[ 1%positive := [1%positive] ]};
     wlists := {[ 1%positive := [] ]};
     elems := ∅; files := ∅ |}.

(** A second laptop object with the name of the first, not yet in any list. *)
Definition laptop_pro : Product.t := Product.mk "Laptop" 99000%float 3.
Definition twin_heap : Heap :=
  {| objs := {[ 1%positive := laptop; 2%positive := phone; 3%positive := laptop_pro ]};
     plists := {[ 1%positive := [2%positive; 1%positive] ]};
     wlists := {[ 1%positive := [] ]};
     elems := ∅; files := ∅ |}.

(** * Properties *)

(** ** Order fulfilment *)

Section ProcessOrder.
Variables (h : Heap) (o : Order.t) (p : Product.t).
Hypothesis Hp : objs h !! Order.product o = Some p.

Lemma process_order_enough :
  (Order.quantity o ≤ Product.quantity p)%Z →
  Order.process_order o h =
    Some (Return tt,
          set_objs <[Order.product o :=
                       Product.with_quantity p (Product.quantity p - Order.quantity o)]> h).
Proof using Hp.
  intros Hle. unfold Order.process_order, bind, getattr, setattr. rewrite Hp.
  destruct (Z.gtb_spec (Order.quantity o) (Product.quantity p)) as [Hgt|_]; [lia|].
  by rewrite Hp.
Qed.

Lemma process_order_short :
  (Order.quantity o > Product.quantity p)%Z →
  Order.process_order o h =
    Some (Raise (InsufficientStockError ("Недостаточно товара " +:+ Product.name p)), h).
Proof using Hp.
  intros Hgt. unfold Order.process_order, bind, getattr, raise. rewrite Hp.
  destruct (Z.gtb_spec (Order.quantity o) (Product.quantity p)) as [_|Hle]; [|lia].
  by rewrite Hp.
Qed.
End ProcessOrder.

Lemma stock_set_objs_same h l p :
  stock (set_objs <[l := p]> h) l = Some (Product.quantity p).
Proof. unfold stock. simpl. by rewrite lookup_insert_eq. Qed.

Lemma stock_lookup h l p :
  objs h !! l = Some p → stock h l = Some (Product.quantity p).
Proof. unfold stock. by intros ->. Qed.

(** C1: an order for [q] units of a product with [s] units in stock succeeds
    and leaves exactly [s - q] units when [q ≤ s] (nothing else on the heap
    changes, and the product keeps its name and price); when [q > s] it raises
    [InsufficientStockError] with the product's name in the message and leaves
    the heap, hence the stock [s], as it was. *)
Theorem process_order_spec (h : Heap) (o : Order.t) (p : Product.t) :
  objs h !! Order.product o = Some p →
  let q := Order.quantity o in
  let s := Product.quantity p in
  ((q ≤ s)%Z →
     ∃ h', Order.process_order o h = Some (Return tt, h')
           ∧ stock h' (Order.product o) = Some (s - q)%Z
           ∧ h' = set_objs <[Order.product o := Product.with_quantity p (s - q)]> h)
  ∧ ((q > s)%Z →
     Order.process_order o h =
       Some (Raise (InsufficientStockError ("Недостаточно товара " +:+ Product.name p)), h)
     ∧ stock h (Order.product o) = Some s).
Proof.
  intros Hp q s. split.
  - intros Hle. eexists. split; [by apply process_order_enough|].
    split; [|reflexivity]. by rewrite stock_set_objs_same.
  - intros Hgt. split; [by apply process_order_short|by apply stock_lookup].
Qed.

Lemma process_order_spec_witness :
  (∃ h', Order.process_order (Order.mk petr 1%positive 1) laptop_heap = Some (Return tt, h')
         ∧ stock h' 1%positive = Some 9%Z
         ∧ h' = set_objs <[1%positive := Product.with_quantity laptop 9]> laptop_heap)
  ∧ (Order.process_order (Order.mk petr 1%positive 11) laptop_heap =
       Some (Raise (InsufficientStockError "Недостаточно товара Laptop"), laptop_heap)
     ∧ stock laptop_heap 1%positive = Some 10%Z).
Proof.
  split.
  - apply (process_order_spec laptop_heap (Order.mk petr 1%positive 1) laptop);
      [reflexivity | simpl; lia].
  - apply (process_order_spec laptop_heap (Order.mk petr 1%positive 11) laptop);
      [reflexivity | simpl; lia].
Defined.

(** C4, as stated, fails: with [q = -1] and [s = -2] the condition [2q ≤ s]
    holds, yet [q > s] and the first invocation already raises, leaving the
    stock at [-2]. *)
Lemma process_order_twice_counterexample :
  objs owed_heap !! Order.product give_back = Some owed
  ∧ (2 * Order.quantity give_back ≤ Product.quantity owed)%Z
  ∧ Order.process_order give_back owed_heap =
      Some (Raise (InsufficientStockError "Недостаточно товара Laptop"), owed_heap)
  ∧ process_order_twice give_back owed_heap =
      Some (Raise (InsufficientStockError "Недостаточно товара Laptop"), owed_heap)
  ∧ ¬ double_decrement_claim owed_heap give_back owed.
Proof.
  split; [reflexivity|]. split; [simpl; lia|].
  split; [reflexivity|]. split; [reflexivity|].
  intros Hclaim.
  destruct Hclaim as (h1 & h2 & H1 & _); [reflexivity | simpl; lia |].
  vm_compute in H1. discriminate H1.
Qed.

(** C4, amended: when [q ≤ s] and [2q ≤ s] (so for every [q ≥ 0] with
    [2q ≤ s]), two invocations of [process_order] on the same order both
    succeed and leave [s - 2q] units: the stock is decremented once per
    invocation. *)
Theorem process_order_twice_spec (h : Heap) (o : Order.t) (p : Product.t) :
  objs h !! Order.product o = Some p →
  (Order.quantity o ≤ Product.quantity p)%Z →
  (2 * Order.quantity o ≤ Product.quantity p)%Z →
  ∃ h1 h2,
    Order.process_order o h = Some (Return tt, h1)
    ∧ Order.process_order o h1 = Some (Return tt, h2)
    ∧ process_order_twice o h = Some (Return tt, h2)
    ∧ stock h1 (Order.product o) = Some (Product.quantity p - Order.quantity o)%Z
    ∧ stock h2 (Order.product o) = Some (Product.quantity p - 2 * Order.quantity o)%Z.
Proof.
  intros Hp Hle Hle2.
  set (q := Order.quantity o) in *. set (s := Product.quantity p) in *.
  set (p1 := Product.with_quantity p (s - q)).
  set (h1 := set_objs <[Order.product o := p1]> h).
  assert (H1 : Order.process_order o h = Some (Return tt, h1))
    by (by apply process_order_enough).
  assert (Hp1 : objs h1 !! Order.product o = Some p1)
    by (simpl; apply lookup_insert_eq).
  assert (H2 : Order.process_order o h1 =
               Some (Return tt,
                     set_objs <[Order.product o :=
                                  Product.with_quantity p1 (Product.quantity p1 - q)]> h1)).
  { apply process_order_enough; [exact Hp1 | simpl; fold q; lia]. }
  eexists h1, _. split; [exact H1|]. split; [exact H2|].
  split; [by unfold process_order_twice, bind; rewrite H1|].
  split; [apply stock_set_objs_same|].
  rewrite stock_set_objs_same. simpl. f_equal. lia.
Qed.

Lemma process_order_twice_spec_witness :
  ∃ h1 h2,
    Order.process_order (Order.mk petr 1%positive 4) laptop_heap = Some (Return tt, h1)
    ∧ Order.process_order (Order.mk petr 1%positive 4) h1 = Some (Return tt, h2)
    ∧ process_order_twice (Order.mk petr 1%positive 4) laptop_heap = Some (Return tt, h2)
    ∧ stock h1 1%positive = Some 6%Z
    ∧ stock h2 1%positive = Some 2%Z.
Proof.
  apply (process_order_twice_spec laptop_heap (Order.mk petr 1%positive 4) laptop);
    [reflexivity | simpl; lia | simpl; lia].
Defined.

(** C5: if the referenced product has a non-negative stock before
    [process_order], the call ends (by returning or by raising) and the stock
    is still non-negative afterwards. *)
Theorem process_order_keeps_stock_nonneg (h : Heap) (o : Order.t) (p : Product.t) :
  objs h !! Order.product o = Some p →
  (0 ≤ Product.quantity p)%Z →
  ∃ r h' s',
    Order.process_order o h = Some (r, h')
    ∧ stock h' (Order.product o) = Some s'
    ∧ (0 ≤ s')%Z.
Proof.
  intros Hp Hs.
  destruct (Z_le_gt_dec (Order.quantity o) (Product.quantity p)) as [Hle|Hgt].
  - eexists _, _, _. split; [by apply process_order_enough|].
    split; [apply stock_set_objs_same|]. simpl. lia.
  - eexists _, _, _. split; [by apply process_order_short|].
    split; [by apply stock_lookup|]. done.
Qed.

Lemma process_order_keeps_stock_nonneg_witness :
  ∃ r h' s',
    Order.process_order (Order.mk petr 1%positive 10) laptop_heap = Some (r, h')
    ∧ stock h' 1%positive = Some s'
    ∧ (0 ≤ s')%Z.
Proof.
  apply (process_order_keeps_stock_nonneg laptop_heap (Order.mk petr 1%positive 10) laptop);
    [reflexivity | simpl; lia].
Defined.

(** C10: [Order.__init__] accepts any quantity, and [process_order] does not
    test its sign.  On a product with stock [s ≥ 0], an order for 0 units
    succeeds and leaves [s]; an order for a negative quantity [q] succeeds and
    leaves [s - q], which is more than [s]. *)
Theorem process_order_no_positivity_check
    (h : Heap) (c : Customer.t) (l : loc) (q : Z) (p : Product.t) :
  objs h !! l = Some p →
  (0 ≤ Product.quantity p)%Z →
  let s := Product.quantity p in
  ∃ o, Order.__init__ c l q h = Some (Return o, h)
       ∧ Order.quantity o = q
       ∧ Order.product o = l
       ∧ (q = 0%Z →
            ∃ h', Order.process_order o h = Some (Return tt, h') ∧ stock h' l = Some s)
       ∧ ((q < 0)%Z →
            ∃ h', Order.process_order o h = Some (Return tt, h')
                  ∧ stock h' l = Some (s - q)%Z ∧ (s < s - q)%Z).
Proof.
  intros Hp Hs s. exists (Order.mk c l q).
  split; [reflexivity|]. split; [reflexivity|]. split; [reflexivity|].
  split.
  - intros ->. eexists. split.
    + apply (process_order_enough h (Order.mk c l 0) p Hp). simpl. lia.
    + rewrite stock_set_objs_same. simpl. f_equal. lia.
  - intros Hq. eexists. split.
    + apply (process_order_enough h (Order.mk c l q) p Hp). simpl. lia.
    + rewrite stock_set_objs_same. simpl. split; [reflexivity|]. unfold s. lia.
Qed.

Lemma process_order_no_positivity_check_witness :
  (∃ o, Order.__init__ petr 1%positive 0 laptop_heap = Some (Return o, laptop_heap)
        ∧ Order.quantity o = 0%Z
        ∧ Order.product o = 1%positive
        ∧ ((0 = 0)%Z →
             ∃ h', Order.process_order o laptop_heap = Some (Return tt, h')
                   ∧ stock h' 1%positive = Some 10%Z)
        ∧ ((0 < 0)%Z →
             ∃ h', Order.process_order o laptop_heap = Some (Return tt, h')
                   ∧ stock h' 1%positive = Some (10 - 0)%Z ∧ (10 < 10 - 0)%Z))
  ∧ (∃ o, Order.__init__ petr 1%positive (-3) laptop_heap = Some (Return o, laptop_heap)
        ∧ Order.quantity o = (-3)%Z
        ∧ Order.product o = 1%positive
        ∧ ((-3 = 0)%Z →
             ∃ h', Order.process_order o laptop_heap = Some (Return tt, h')
                   ∧ stock h' 1%positive = Some 10%Z)
        ∧ ((-3 < 0)%Z →
             ∃ h', Order.process_order o laptop_heap = Some (Return tt, h')
                   ∧ stock h' 1%positive = Some (10 - -3)%Z ∧ (10 < 10 - -3)%Z)).
Proof.
  split.
  - apply (process_order_no_positivity_check laptop_heap petr 1%positive 0 laptop);
      [reflexivity | simpl; lia].
  - apply (process_order_no_positivity_check laptop_heap petr 1%positive (-3) laptop);
      [reflexivity | simpl; lia].
Defined.

(** ** Warehouse: lookup by name *)

Lemma getattr_lookup {A} h l o (field : Product.t → A) :
  objs h !! l = Some o → getattr l field h = Some (Return (field o), h).
Proof. unfold getattr. by intros ->. Qed.

Lemma list_items_lookup h l xs :
  plists h !! l = Some xs → list_items l h = Some (Return xs, h).
Proof. unfold list_items. by intros ->. Qed.

Lemma bind_return {A B} (m : M A) (k : A → M B) h a h' :
  m h = Some (Return a, h') → bind m k h = k a h'.
Proof. unfold bind. by intros ->. Qed.

(** Every allocated list of products either holds no product called [n], or
    splits around the first one that is. *)
Lemma first_match_cases (h : Heap) (n : string) (ps : list loc) :
  Forall (λ l, is_Some (objs h !! l)) ps →
  Forall (other_name h n) ps
  ∨ ∃ before p after o,
      ps = before ++ p :: after ∧ Forall (other_name h n) before
      ∧ objs h !! p = Some o ∧ Product.name o = n.
Proof.
  induction 1 as [|l ps [o Ho] _ IH]; [by left|].
  destruct (decide (Product.name o = n)) as [Heq|Hne].
  - right. by exists [], l, ps, o.
  - destruct IH as [IH|(before & p & after & o' & -> & Hb & Hp & Hn)].
    + left. constructor; [by exists o|done].
    + right. exists (l :: before), p, after, o'.
      repeat split; try done. constructor; [by exists o|done].
Qed.

Lemma other_name_not_match h n before p o :
  Forall (other_name h n) before →
  objs h !! p = Some o → Product.name o = n → p ∉ before.
Proof.
  intros Hb Hp Hn Hin.
  rewrite Forall_forall in Hb. destruct (Hb _ Hin) as (o' & Ho' & Hne).
  congruence.
Qed.

Lemma remove_first_app (p : loc) (before after : list loc) :
  p ∉ before → remove_first p (before ++ p :: after) = Some (before ++ after).
Proof.
  induction before as [|y before IH]; intros Hnot; simpl.
  - by rewrite decide_True.
  - apply not_elem_of_cons in Hnot as [Hne Hnot].
    rewrite decide_False by done. by rewrite IH.
Qed.

Section Loops.
Variables (h : Heap) (n : string).

Lemma update_product_loop_found x before p after o :
  Forall (other_name h n) before →
  objs h !! p = Some o → Product.name o = n →
  Warehouse.update_product_loop (before ++ p :: after) n x h =
    Some (Return tt, set_objs <[p := Product.with_price o x]> h).
Proof.
  intros Hb Hp Hn. induction Hb as [|l before (ol & Hl & Hne) _ IH]; simpl.
  - rewrite (bind_return _ _ _ _ _ (getattr_lookup _ _ _ _ Hp)).
    rewrite decide_True by done. unfold setattr. by rewrite Hp.
  - rewrite (bind_return _ _ _ _ _ (getattr_lookup _ _ _ _ Hl)).
    by rewrite decide_False.
Qed.

Lemma update_product_loop_missing x ps :
  Forall (other_name h n) ps →
  Warehouse.update_product_loop ps n x h =
    Some (Raise (ProductNotFoundError (not_found_msg n)), h).
Proof.
  induction 1 as [|l ps (ol & Hl & Hne) _ IH]; simpl; [done|].
  rewrite (bind_return _ _ _ _ _ (getattr_lookup _ _ _ _ Hl)).
  by rewrite decide_False.
Qed.

Lemma remove_product_loop_found w before p after o :
  Forall (other_name h n) before →
  objs h !! p = Some o → Product.name o = n →
  Warehouse.remove_product_loop w (before ++ p :: after) n h =
    list_remove (Warehouse.products w) p h.
Proof.
  intros Hb Hp Hn. induction Hb as [|l before (ol & Hl & Hne) _ IH]; simpl.
  - rewrite (bind_return _ _ _ _ _ (getattr_lookup _ _ _ _ Hp)).
    by rewrite decide_True.
  - rewrite (bind_return _ _ _ _ _ (getattr_lookup _ _ _ _ Hl)).
    by rewrite decide_False.
Qed.

Lemma remove_product_loop_missing w ps :
  Forall (other_name h n) ps →
  Warehouse.remove_product_loop w ps n h =
    Some (Raise (ProductNotFoundError (not_found_msg n)), h).
Proof.
  induction 1 as [|l ps (ol & Hl & Hne) _ IH]; simpl; [done|].
  rewrite (bind_return _ _ _ _ _ (getattr_lookup _ _ _ _ Hl)).
  by rewrite decide_False.
Qed.
End Loops.

Section WarehouseCalls.
Variables (h : Heap) (w : Warehouse.t) (n : string) (ps : list loc).
Hypothesis Hps : plists h !! Warehouse.products w = Some ps.

Lemma update_product_found x before p after o :
  ps = before ++ p :: after → Forall (other_name h n) before →
  objs h !! p = Some o → Product.name o = n →
  Warehouse.update_product w n x h =
    Some (Return tt, set_objs <[p := Product.with_price o x]> h).
Proof using Hps.
  intros -> Hb Hp Hn. unfold Warehouse.update_product.
  rewrite (bind_return _ _ _ _ _ (list_items_lookup _ _ _ Hps)).
  by apply update_product_loop_found.
Qed.

Lemma update_product_missing x :
  Forall (other_name h n) ps →
  Warehouse.update_product w n x h =
    Some (Raise (ProductNotFoundError (not_found_msg n)), h).
Proof using Hps.
  intros Hall. unfold Warehouse.update_product.
  rewrite (bind_return _ _ _ _ _ (list_items_lookup _ _ _ Hps)).
  by apply update_product_loop_missing.
Qed.

Lemma remove_product_found before p after o :
  ps = before ++ p :: after → Forall (other_name h n) before →
  objs h !! p = Some o → Product.name o = n →
  Warehouse.remove_product w n h =
    Some (Return tt, set_plists <[Warehouse.products w := before ++ after]> h).
Proof using Hps.
  intros Hsplit Hb Hp Hn. unfold Warehouse.remove_product.
  rewrite (bind_return _ _ _ _ _ (list_items_lookup _ _ _ Hps)).
  rewrite Hsplit at 1.
  rewrite (remove_product_loop_found h n w before p after o Hb Hp Hn).
  unfold list_remove.
  rewrite (bind_return _ _ _ _ _ (list_items_lookup _ _ _ Hps)).
  rewrite Hsplit, remove_first_app by eauto using other_name_not_match.
  unfold list_store. by rewrite Hps.
Qed.

Lemma remove_product_missing :
  Forall (other_name h n) ps →
  Warehouse.remove_product w n h =
    Some (Raise (ProductNotFoundError (not_found_msg n)), h).
Proof using Hps.
  intros Hall. unfold Warehouse.remove_product.
  rewrite (bind_return _ _ _ _ _ (list_items_lookup _ _ _ Hps)).
  by apply remove_product_loop_missing.
Qed.
End WarehouseCalls.

(** C2: [update_product(name, new_price)] assigns the price of the first
    product of the list called [name], and nothing else: the product keeps
    its name and quantity, every other object and list is as before.  If no
    product of the list is called [name], it raises [ProductNotFoundError] and
    the heap is unchanged. *)
Theorem update_product_spec
    (h : Heap) (w : Warehouse.t) (n : string) (x : float) (ps : list loc) :
  plists h !! Warehouse.products w = Some ps →
  (∀ before p after o,
      ps = before ++ p :: after →
      Forall (other_name h n) before →
      objs h !! p = Some o → Product.name o = n →
      ∃ h', Warehouse.update_product w n x h = Some (Return tt, h')
            ∧ h' = set_objs <[p := Product.with_price o x]> h
            ∧ Product.price <$> objs h' !! p = Some x
            ∧ stock h' p = Some (Product.quantity o)
            ∧ (∀ l, l ≠ p → objs h' !! l = objs h !! l))
  ∧ (Forall (other_name h n) ps →
      Warehouse.update_product w n x h =
        Some (Raise (ProductNotFoundError (not_found_msg n)), h)).
Proof.
  intros Hps. split.
  - intros before p after o Hsplit Hb Hp Hn. eexists.
    split; [by eapply update_product_found|].
    split; [reflexivity|]. unfold stock. simpl. rewrite lookup_insert_eq.
    repeat split; try done. intros l Hl. by rewrite lookup_insert_ne.
  - intros Hall. by apply update_product_missing with ps.
Qed.

(** C3: [remove_product(name)] removes the first product of the list called
    [name] and keeps the others in their order; no object changes.  If no
    product of the list is called [name], it raises [ProductNotFoundError] and
    the heap, so the list and its length, is unchanged. *)
Theorem remove_product_spec (h : Heap) (w : Warehouse.t) (n : string) (ps : list loc) :
  plists h !! Warehouse.products w = Some ps →
  (∀ before p after o,
      ps = before ++ p :: after →
      Forall (other_name h n) before →
      objs h !! p = Some o → Product.name o = n →
      ∃ h', Warehouse.remove_product w n h = Some (Return tt, h')
            ∧ h' = set_plists <[Warehouse.products w := before ++ after]> h
            ∧ plists h' !! Warehouse.products w = Some (before ++ after)
            ∧ objs h' = objs h)
  ∧ (Forall (other_name h n) ps →
      ∃ h', Warehouse.remove_product w n h =
              Some (Raise (ProductNotFoundError (not_found_msg n)), h')
            ∧ h' = h
            ∧ length <$> plists h' !! Warehouse.products w = Some (length ps)).
Proof.
  intros Hps. split.
  - intros before p after o Hsplit Hb Hp Hn. eexists.
    split; [by eapply remove_product_found|].
    split; [reflexivity|]. simpl. by rewrite lookup_insert_eq.
  - intros Hall. exists h.
    split; [by apply remove_product_missing with ps|].
    split; [reflexivity|]. by rewrite Hps.
Qed.

Lemma shelf_other_name_laptop : other_name shelf_heap "Phone" 1%positive.
Proof. exists laptop. split; [reflexivity|discriminate]. Qed.

Lemma shelf_other_name_phone : other_name shelf_heap "Tablet" 2%positive.
Proof. exists phone. split; [reflexivity|discriminate]. Qed.

Lemma shelf_other_name_tablet : other_name shelf_heap "Tablet" 1%positive.
Proof. exists laptop. split; [reflexivity|discriminate]. Qed.

Lemma update_product_spec_witness :
  (∃ h', Warehouse.update_product moscow "Phone" 39990%float shelf_heap = Some (Return tt, h')
         ∧ h' = set_objs <[2%positive := Product.with_price phone 39990%float]> shelf_heap
         ∧ Product.price <$> objs h' !! 2%positive = Some 39990%float
         ∧ stock h' 2%positive = Some 15%Z
         ∧ (∀ l, l ≠ 2%positive → objs h' !! l = objs shelf_heap !! l))
  ∧ Warehouse.update_product moscow "Tablet" 39990%float shelf_heap =
      Some (Raise (ProductNotFoundError "Товар 'Tablet' не найден"), shelf_heap).
Proof.
  destruct (update_product_spec shelf_heap moscow "Phone" 39990%float
              [1%positive; 2%positive; 1%positive] eq_refl) as [Hfound _].
  destruct (update_product_spec shelf_heap moscow "Tablet" 39990%float
              [1%positive; 2%positive; 1%positive] eq_refl) as [_ Hmissing].
  split.
  - apply (Hfound [1%positive] 2%positive [1%positive] phone); try reflexivity.
    repeat constructor. exact shelf_other_name_laptop.
  - apply Hmissing. repeat constructor;
      [exact shelf_other_name_tablet | exact shelf_other_name_phone
       | exact shelf_other_name_tablet].
Defined.

Lemma remove_product_spec_witness :
  (∃ h', Warehouse.remove_product moscow "Phone" shelf_heap = Some (Return tt, h')
         ∧ h' = set_plists <[1%positive := [1%positive; 1%positive]]> shelf_heap
         ∧ plists h' !! 1%positive = Some [1%positive; 1%positive]
         ∧ objs h' = objs shelf_heap)
  ∧ (∃ h', Warehouse.remove_product moscow "Tablet" shelf_heap =
             Some (Raise (ProductNotFoundError "Товар 'Tablet' не найден"), h')
           ∧ h' = shelf_heap
           ∧ length <$> plists h' !! 1%positive = Some 3%nat).
Proof.
  destruct (remove_product_spec shelf_heap moscow "Phone"
              [1%positive; 2%positive; 1%positive] eq_refl) as [Hfound _].
  destruct (remove_product_spec shelf_heap moscow "Tablet"
              [1%positive; 2%positive; 1%positive] eq_refl) as [_ Hmissing].
  split.
  - apply (Hfound [1%positive] 2%positive [1%positive] phone); try reflexivity.
    repeat constructor. exact shelf_other_name_laptop.
  - apply Hmissing. repeat constructor;
      [exact shelf_other_name_tablet | exact shelf_other_name_phone
       | exact shelf_other_name_tablet].
Defined.

(** The same object twice in the list: removing by its name drops the first
    reference only. *)
Example remove_product_shared_object :
  ∃ h', Warehouse.remove_product moscow "Laptop" shelf_heap = Some (Return tt, h')
        ∧ plists h' !! 1%positive = Some [2%positive; 1%positive].
Proof. eexists. split; [vm_compute; reflexivity|reflexivity]. Qed.

(** ** Warehouse: the list handed out by [get_products] *)

Lemma list_append_lookup h l xs x :
  plists h !! l = Some xs →
  list_append l x h = Some (Return tt, set_plists <[l := xs ++ [x]]> h).
Proof.
  intros Hl. unfold list_append.
  rewrite (bind_return _ _ _ _ _ (list_items_lookup _ _ _ Hl)).
  unfold list_store. by rewrite Hl.
Qed.

Lemma add_all_lookup w ps : ∀ h xs,
  plists h !! Warehouse.products w = Some xs →
  ∃ h', add_all w ps h = Some (Return tt, h')
        ∧ plists h' !! Warehouse.products w = Some (xs ++ ps)
        ∧ objs h' = objs h.
Proof.
  induction ps as [|p ps IH]; intros h xs Hxs; simpl.
  - exists h. by rewrite app_nil_r.
  - unfold Warehouse.add_product.
    rewrite (bind_return _ _ _ _ _ (list_append_lookup _ _ _ p Hxs)).
    destruct (IH (set_plists <[Warehouse.products w := xs ++ [p]]> h) (xs ++ [p]))
      as (h' & Hrun & Hl & Ho); [simpl; apply lookup_insert_eq|].
    exists h'. split; [done|]. by rewrite Hl, <- app_assoc.
Qed.

Lemma warehouse_init_lookup location h :
  ∃ w h', Warehouse.__init__ location h = Some (Return w, h')
          ∧ Warehouse.location w = location
          ∧ plists h' !! Warehouse.products w = Some []
          ∧ plists h !! Warehouse.products w = None
          ∧ objs h' = objs h.
Proof.
  eexists _, _. split; [reflexivity|]. simpl.
  split; [done|]. split; [apply lookup_insert_eq|]. split; [|done].
  apply not_elem_of_dom, is_fresh.
Qed.

(** C9, as stated, fails: the list returned by [get_products] is the
    warehouse's own list object, so appending to it appends to the
    warehouse's collection. *)
Lemma get_products_view_counterexample :
  Warehouse.get_products moscow laptop_heap = Some (Return 1%positive, laptop_heap)
  ∧ plists laptop_heap !! Warehouse.products moscow = Some [1%positive]
  ∧ (∃ h', list_append 1%positive 1%positive laptop_heap = Some (Return tt, h')
           ∧ plists h' !! Warehouse.products moscow = Some [1%positive; 1%positive])
  ∧ ¬ view_is_isolated laptop_heap moscow (λ view, list_append view 1%positive).
Proof.
  split; [reflexivity|]. split; [reflexivity|].
  split; [eexists; split; reflexivity|].
  intros Hiso.
  specialize (Hiso 1%positive laptop_heap (Return tt)
                (set_plists <[1%positive := [1%positive; 1%positive]]> laptop_heap)
                eq_refl eq_refl).
  vm_compute in Hiso. discriminate Hiso.
Qed.

(** C9, amended: [get_products()] returns the warehouse's own list object and
    changes nothing.  Read through it, the list is the current sequence of
    products: empty for a new warehouse, the products added in insertion
    order, and it follows later calls of [add_product], [update_product] and
    [remove_product].  A change made through the returned list is a change of
    the warehouse's collection. *)
Theorem get_products_spec (h : Heap) (w : Warehouse.t) (ps : list loc) :
  plists h !! Warehouse.products w = Some ps →
  Warehouse.get_products w h = Some (Return (Warehouse.products w), h)
  ∧ (view <- Warehouse.get_products w ;; list_items view) h = Some (Return ps, h)
  ∧ (∀ location added, ∃ h',
       (w0 <- Warehouse.__init__ location ;; add_all w0 added ;;;
        view <- Warehouse.get_products w0 ;; list_items view) h
         = Some (Return added, h'))
  ∧ (∀ added, ∃ h',
       (view <- Warehouse.get_products w ;; add_all w added ;;; list_items view) h
         = Some (Return (ps ++ added), h'))
  ∧ (∀ n x before p after o,
       ps = before ++ p :: after → Forall (other_name h n) before →
       objs h !! p = Some o → Product.name o = n →
       ∃ h',
         (view <- Warehouse.get_products w ;; Warehouse.update_product w n x ;;;
          list_items view) h = Some (Return ps, h')
         ∧ Product.price <$> objs h' !! p = Some x)
  ∧ (∀ n before p after o,
       ps = before ++ p :: after → Forall (other_name h n) before →
       objs h !! p = Some o → Product.name o = n →
       ∃ h',
         (view <- Warehouse.get_products w ;; Warehouse.remove_product w n ;;;
          list_items view) h = Some (Return (before ++ after), h'))
  ∧ (∀ x, ∃ h',
       (view <- Warehouse.get_products w ;; list_append view x) h = Some (Return tt, h')
       ∧ plists h' !! Warehouse.products w = Some (ps ++ [x])).
Proof.
  intros Hps. split; [reflexivity|].
  split.
  { unfold Warehouse.get_products, bind, ret. by apply list_items_lookup. }
  split.
  { intros location added.
    destruct (warehouse_init_lookup location h) as (w0 & h0 & Hinit & _ & Hl0 & _).
    destruct (add_all_lookup w0 added h0 [] Hl0) as (h' & Hrun & Hl & _).
    exists h'. rewrite (bind_return _ _ _ _ _ Hinit), (bind_return _ _ _ _ _ Hrun).
    unfold Warehouse.get_products, ret, bind. by apply list_items_lookup. }
  split.
  { intros added. destruct (add_all_lookup w added h ps Hps) as (h' & Hrun & Hl & _).
    exists h'. unfold Warehouse.get_products, ret. unfold bind at 1.
    rewrite (bind_return _ _ _ _ _ Hrun). by apply list_items_lookup. }
  split.
  { intros n x before p after o Hsplit Hb Hp Hn.
    eexists. unfold Warehouse.get_products, ret. unfold bind at 1.
    rewrite (bind_return _ _ _ _ _
               (update_product_found h w n ps Hps x before p after o Hsplit Hb Hp Hn)).
    split; [by apply list_items_lookup|]. simpl. by rewrite lookup_insert_eq. }
  split.
  { intros n before p after o Hsplit Hb Hp Hn.
    eexists. unfold Warehouse.get_products, ret. unfold bind at 1.
    rewrite (bind_return _ _ _ _ _
               (remove_product_found h w n ps Hps before p after o Hsplit Hb Hp Hn)).
    apply list_items_lookup. simpl. apply lookup_insert_eq. }
  intros x. eexists. unfold Warehouse.get_products, ret, bind.
  split; [by apply list_append_lookup|]. simpl. apply lookup_insert_eq.
Qed.

Lemma get_products_spec_witness :
  Warehouse.get_products moscow shelf_heap = Some (Return 1%positive, shelf_heap)
  ∧ (∃ h', (view <- Warehouse.get_products moscow ;;
            Warehouse.remove_product moscow "Phone" ;;; list_items view) shelf_heap
             = Some (Return [1%positive; 1%positive], h'))
  ∧ (∃ h', (view <- Warehouse.get_products moscow ;; list_append view 2%positive) shelf_heap
             = Some (Return tt, h')
           ∧ plists h' !! 1%positive
             = Some ([1%positive; 2%positive; 1%positive] ++ [2%positive])).
Proof.
  destruct (get_products_spec shelf_heap moscow [1%positive; 2%positive; 1%positive] eq_refl)
    as (Hget & _ & _ & _ & _ & Hremove & Hmutate).
  split; [exact Hget|]. split.
  - apply (Hremove "Phone" [1%positive] 2%positive [1%positive] phone); try reflexivity.
    repeat constructor. exact shelf_other_name_laptop.
  - apply (Hmutate 2%positive).
Defined.

(** ** The markup export *)

Lemma same_data_refl h : same_data h h.
Proof. done. Qed.

Lemma same_data_trans h1 h2 h3 : same_data h1 h2 → same_data h2 h3 → same_data h1 h3.
Proof. unfold same_data. intros (-> & -> & -> & ->) (-> & -> & -> & ->). done. Qed.

Lemma kept_except_refl x E : kept_except x E E.
Proof. by intros l e _ He. Qed.

Lemma lookup_distinct (E : gmap loc ElementObj) l x e r :
  E !! l = Some e → E !! x = Some r → e ≠ r → l ≠ x.
Proof. intros Hl Hx Hne ->. congruence. Qed.

Lemma SubElement_lookup h parent o g extra :
  elems h !! parent = Some o →
  ∃ e h',
    ET.SubElement parent g extra h = Some (Return e, h')
    ∧ same_data h h'
    ∧ elems h !! e = None
    ∧ elems h' !! e = Some (mkElement g extra [])
    ∧ elems h' !! parent = Some (mkElement (tag o) (attrib o) (children o ++ [e]))
    ∧ kept_except parent (elems h) (elems h').
Proof.
  intros Hparent. set (e := fresh (dom (elems h))).
  assert (Hfresh : elems h !! e = None) by apply not_elem_of_dom, is_fresh.
  assert (Hne : e ≠ parent) by (intros ->; congruence).
  eexists e, _. split.
  { unfold ET.SubElement, ET.Element, ET.append, bind. simpl. fold e.
    rewrite lookup_insert_ne by done. rewrite Hparent. reflexivity. }
  split; [done|]. split; [done|]. simpl.
  split; [by rewrite lookup_insert_ne, lookup_insert_eq|].
  split; [by rewrite lookup_insert_eq|].
  intros l x Hl Hx. rewrite lookup_insert_ne by done.
  rewrite lookup_insert_ne; [done|]. intros ->. congruence.
Qed.

Lemma comprehension_pure {A B} (f : A → M B) h xs ys :
  Forall2 (λ x y, f x h = Some (Return y, h)) xs ys →
  comprehension f xs h = Some (Return ys, h).
Proof.
  induction 1 as [|x y xs ys Hx _ IH]; simpl; [done|].
  rewrite (bind_return _ _ _ _ _ Hx), (bind_return _ _ _ _ _ IH). done.
Qed.

Section XmlLoops.
Variable str_float : float → string.

Lemma product_elements_lookup w_el : ∀ refs ps h g a cs0,
  Forall2 (λ r p, objs h !! r = Some p) refs ps →
  elems h !! w_el = Some (mkElement g a cs0) →
  ∃ h' cs1,
    EStore.product_elements str_float w_el refs h = Some (Return tt, h')
    ∧ same_data h h'
    ∧ elems h' !! w_el = Some (mkElement g a (cs0 ++ cs1))
    ∧ Forall2 (λ c p, elems h' !! c = Some (product_obj str_float p)) cs1 ps
    ∧ kept_except w_el (elems h) (elems h').
Proof.
  induction refs as [|r refs IH]; intros ps h g a cs0 Hrefs Hw.
  - apply Forall2_nil_inv_l in Hrefs as ->. exists h, []. simpl.
    rewrite app_nil_r. eauto using same_data_refl, kept_except_refl.
  - apply Forall2_cons_inv_l in Hrefs as (p & ps' & Hr & Hrefs & ->). simpl.
    rewrite !(bind_return _ _ _ _ _ (getattr_lookup _ _ _ _ Hr)).
    destruct (SubElement_lookup h w_el _ "product"
                [("name", Product.name p);
                 ("price", str_float (Product.price p));
                 ("quantity", str (Product.quantity p))] Hw)
      as (e & h1 & Hsub & Hsame & Hfresh & He & Hw1 & Hkept).
    rewrite (bind_return _ _ _ _ _ Hsub).
    destruct (IH ps' h1 g a (cs0 ++ [e])) as (h' & cs1 & Hrun & Hsame' & Hw' & Hall & Hkept').
    { destruct Hsame as (-> & _). exact Hrefs. }
    { exact Hw1. }
    exists h', (e :: cs1). split; [exact Hrun|].
    split; [by eapply same_data_trans|].
    split; [by rewrite Hw', <- app_assoc|].
    split.
    + constructor; [|exact Hall]. apply Hkept'; [|exact He]. intros ->. congruence.
    + intros l x Hl Hx. apply Hkept'; [done|]. by apply Hkept.
Qed.

Lemma is_warehouse_el_kept root E E' c w r :
  E !! root = Some r → tag r = "estore" →
  kept_except root E E' →
  is_warehouse_el str_float E c w → is_warehouse_el str_float E' c w.
Proof.
  intros Hroot Htag Hkept (pcs & Hc & Hpcs). exists pcs. split.
  - apply Hkept; [|exact Hc]. apply (lookup_distinct E _ _ _ _ Hc Hroot).
    intros <-. discriminate Htag.
  - eapply Forall2_impl; [exact Hpcs|]. intros pc p Hpc. simpl in Hpc.
    apply Hkept; [|exact Hpc]. apply (lookup_distinct E _ _ _ _ Hpc Hroot).
    intros <-. discriminate Htag.
Qed.

Lemma snapshot_cons_inv h w ws content :
  snapshot h (w :: ws) = Some content →
  ∃ refs ps rest,
    content = (Warehouse.location w, ps) :: rest
    ∧ plists h !! Warehouse.products w = Some refs
    ∧ Forall2 (λ r p, objs h !! r = Some p) refs ps
    ∧ snapshot h ws = Some rest.
Proof.
  unfold snapshot. intros Hsnap. apply mapM_Some in Hsnap.
  apply Forall2_cons_inv_l in Hsnap as ([loc0 ps] & rest & Hw & Hrest & ->).
  apply fmap_Some in Hw as (ps' & Hps & [= -> ->]).
  unfold products_of in Hps. apply bind_Some in Hps as (refs & Hrefs & Hmap).
  exists refs, ps', rest. split; [done|]. split; [done|].
  split; [by apply mapM_Some|]. by apply mapM_Some.
Qed.

Lemma snapshot_same_data h h' ws : same_data h h' → snapshot h' ws = snapshot h ws.
Proof.
  intros (Ho & Hl & _). unfold snapshot, products_of. by rewrite Ho, Hl.
Qed.

Lemma warehouse_elements_lookup root : ∀ ws content h a cs0,
  snapshot h ws = Some content →
  elems h !! root = Some (mkElement "estore" a cs0) →
  ∃ h' cs1,
    EStore.warehouse_elements str_float root ws h = Some (Return tt, h')
    ∧ same_data h h'
    ∧ elems h' !! root = Some (mkElement "estore" a (cs0 ++ cs1))
    ∧ Forall2 (is_warehouse_el str_float (elems h')) cs1 content
    ∧ kept_except root (elems h) (elems h').
Proof.
  induction ws as [|w ws IH]; intros content h a cs0 Hsnap Hroot.
  - injection Hsnap as <-. exists h, []. simpl. rewrite app_nil_r.
    eauto using same_data_refl, kept_except_refl.
  - apply snapshot_cons_inv in Hsnap as (refs & ps & rest & -> & Hrefs & Hps & Hrest).
    simpl.
    destruct (SubElement_lookup h root _ "warehouse"
                [("location", Warehouse.location w)] Hroot)
      as (w_el & h1 & Hsub & Hsame1 & Hfresh & Hw_el & Hroot1 & Hkept1).
    rewrite (bind_return _ _ _ _ _ Hsub).
    assert (Hne : w_el ≠ root) by (intros ->; congruence).
    assert (Hrefs1 : plists h1 !! Warehouse.products w = Some refs)
      by (destruct Hsame1 as (_ & -> & _); exact Hrefs).
    rewrite (bind_return _ _ _ _ _ (list_items_lookup _ _ _ Hrefs1)).
    destruct (product_elements_lookup w_el refs ps h1 "warehouse"
                [("location", Warehouse.location w)] [])
      as (h2 & pcs & Hrun2 & Hsame2 & Hw_el2 & Hpcs & Hkept2).
    { destruct Hsame1 as (-> & _). exact Hps. }
    { exact Hw_el. }
    rewrite (bind_return _ _ _ _ _ Hrun2).
    assert (Hroot2 : elems h2 !! root = Some (mkElement "estore" a (cs0 ++ [w_el])))
      by (apply Hkept2; [done|exact Hroot1]).
    destruct (IH rest h2 a (cs0 ++ [w_el])) as (h' & cs1 & Hrun & Hsame' & Hroot' & Hall & Hkept').
    { rewrite (snapshot_same_data h h2); [exact Hrest|]. by eapply same_data_trans. }
    { exact Hroot2. }
    exists h', (w_el :: cs1). split; [exact Hrun|].
    split; [eauto using same_data_trans|].
    split; [by rewrite Hroot', <- app_assoc|].
    split.
    + constructor; [|exact Hall].
      apply (is_warehouse_el_kept root (elems h2) _ _ _ _ Hroot2 eq_refl Hkept').
      exists pcs. by split.
    + intros l x Hl Hx. apply Hkept'; [done|]. apply Hkept2.
      * intros ->. congruence.
      * by apply Hkept1.
Qed.

Lemma read_tree_S n e h o :
  elems h !! e = Some o →
  ET.read_tree (S n) e h =
    (cs <- comprehension (ET.read_tree n) (children o) ;;
     ret (Node (tag o) (attrib o) cs)) h.
Proof. simpl. by intros ->. Qed.

Lemma read_tree_product n h c p :
  elems h !! c = Some (product_obj str_float p) →
  ET.read_tree (S n) c h = Some (Return (product_node str_float p), h).
Proof. intros Hc. by rewrite (read_tree_S _ _ _ _ Hc). Qed.

Lemma read_tree_warehouse n h c w :
  is_warehouse_el str_float (elems h) c w →
  ET.read_tree (S (S n)) c h = Some (Return (warehouse_node str_float w), h).
Proof.
  intros (pcs & Hc & Hpcs). rewrite (read_tree_S _ _ _ _ Hc). cbn [children tag attrib].
  assert (Hread : comprehension (ET.read_tree (S n)) pcs h =
                  Some (Return (map (product_node str_float) w.2), h)).
  { apply comprehension_pure, Forall2_fmap_r. eapply Forall2_impl; [exact Hpcs|].
    intros pc p Hpc. by apply read_tree_product. }
  by rewrite (bind_return _ _ _ _ _ Hread).
Qed.

Lemma read_tree_store n h root name cs content :
  elems h !! root = Some (mkElement "estore" [("name", name)] cs) →
  Forall2 (is_warehouse_el str_float (elems h)) cs content →
  ET.read_tree (S (S (S n))) root h = Some (Return (store_node str_float name content), h).
Proof.
  intros Hroot Hcs. rewrite (read_tree_S _ _ _ _ Hroot). cbn [children tag attrib].
  assert (Hread : comprehension (ET.read_tree (S (S n))) cs h =
                  Some (Return (map (warehouse_node str_float) content), h)).
  { apply comprehension_pure, Forall2_fmap_r. eapply Forall2_impl; [exact Hcs|].
    intros c w Hc. by apply read_tree_warehouse. }
  by rewrite (bind_return _ _ _ _ _ Hread).
Qed.
End XmlLoops.

(** [str] on an [int] writes its decimal digits: reading them back gives the
    number. *)
Lemma str_decimal (z : Z) : Z.of_int <$> NilZero.int_of_string (str z) = Some z.
Proof.
  unfold str. rewrite NilZero.isi.
  - simpl. f_equal. apply DecimalZ.of_to.
  - destruct z as [|p|p]; simpl; try discriminate.
    intros [= Hp]. by apply DecimalPos.Unsigned.to_uint_nonnil in Hp.
  - destruct z as [|p|p]; simpl; try discriminate.
    intros [= Hp]. by apply DecimalPos.Unsigned.to_uint_nonnil in Hp.
Qed.

Lemma tags_store_node str_float name content g :
  g ∈ tags (store_node str_float name content) →
  g ∈ ["estore"; "warehouse"; "product"].
Proof.
  rewrite !list_elem_of_In. simpl. intros [<-|Hin]; [tauto|].
  apply in_concat in Hin as (gs & Hgs & Hg).
  apply in_map_iff in Hgs as (t & <- & Ht).
  apply in_map_iff in Ht as (w & <- & _).
  simpl in Hg. destruct Hg as [<-|Hin]; [tauto|].
  apply in_concat in Hin as (gs & Hgs & Hg).
  apply in_map_iff in Hgs as (t & <- & Ht).
  apply in_map_iff in Ht as (p & <- & _).
  simpl in Hg. tauto.
Qed.

Lemma snapshot_lookup h ws content i w :
  snapshot h ws = Some content → ws !! i = Some w →
  ∃ ps, products_of h w = Some ps ∧ content !! i = Some (Warehouse.location w, ps).
Proof.
  unfold snapshot. intros Hsnap Hi. apply mapM_Some in Hsnap.
  destruct (Forall2_lookup_l _ _ _ _ _ Hsnap Hi) as ([loc0 ps] & Hc & Hw).
  apply fmap_Some in Hw as (ps' & Hps & [= -> ->]). by exists ps'.
Qed.

(** C6: [save_to_xml] writes, under the file name, the tree whose root
    [estore] carries the store's name, with one [warehouse] child per
    warehouse carrying its location and one [product] grandchild per product
    carrying name, price and quantity, the price as [str] of the float and
    the quantity in decimal digits.  No other tag occurs, and the customers,
    orders and workers of the store have no influence on the result.
    Products, lists and other files are left alone. *)
Theorem save_to_xml_spec
    (str_float : float → string) (h : Heap) (s : EStore.t) (filename : string)
    (content : list (string * list Product.t)) :
  snapshot h (EStore.warehouses s) = Some content →
  ∃ h' doc,
    EStore.save_to_xml str_float s filename h = Some (Return tt, h')
    ∧ files h' = <[filename := XmlDoc doc]> (files h)
    ∧ objs h' = objs h ∧ plists h' = plists h ∧ wlists h' = wlists h
    ∧ doc = store_node str_float (EStore.name s) content
    ∧ node_tag doc = "estore"
    ∧ node_attrib doc = [("name", EStore.name s)]
    ∧ length (node_children doc) = length (EStore.warehouses s)
    ∧ (∀ i w, EStore.warehouses s !! i = Some w →
         ∃ ps, products_of h w = Some ps
               ∧ node_children doc !! i =
                   Some (Node "warehouse" [("location", Warehouse.location w)]
                           (map (λ p, Node "product"
                                        [("name", Product.name p);
                                         ("price", str_float (Product.price p));
                                         ("quantity", str (Product.quantity p))] []) ps)))
    ∧ (∀ g, g ∈ tags doc → g ∈ ["estore"; "warehouse"; "product"])
    ∧ (∀ cs os wrs,
         EStore.save_to_xml str_float
           (EStore.mk (EStore.name s) (EStore.warehouses s) cs os wrs) filename h
         = Some (Return tt, h'))
    ∧ (∀ z, Z.of_int <$> NilZero.int_of_string (str z) = Some z).
Proof.
  intros Hsnap.
  set (root := fresh (dom (elems h))).
  set (h0 := set_elems <[root := mkElement "estore" [("name", EStore.name s)] []]> h).
  assert (Hnew : ET.Element "estore" [("name", EStore.name s)] h = Some (Return root, h0))
    by reflexivity.
  assert (Hroot0 : elems h0 !! root = Some (mkElement "estore" [("name", EStore.name s)] []))
    by (simpl; apply lookup_insert_eq).
  destruct (warehouse_elements_lookup str_float root (EStore.warehouses s) content h0 _ []
              Hsnap Hroot0) as (h1 & cs & Hrun & Hsame & Hroot1 & Hcs & _).
  assert (Hread : ET.read_tree ET.recursion_limit root h1 =
                  Some (Return (store_node str_float (EStore.name s) content), h1)).
  { change ET.recursion_limit with (S (S (S 997))). by eapply read_tree_store. }
  assert (Hsave : ∀ cs' os wrs,
            EStore.save_to_xml str_float
              (EStore.mk (EStore.name s) (EStore.warehouses s) cs' os wrs) filename h
            = Some (Return tt,
                    set_files <[filename :=
                      XmlDoc (store_node str_float (EStore.name s) content)]> h1)).
  { intros cs' os wrs. unfold EStore.save_to_xml. cbn [EStore.name EStore.warehouses].
    rewrite (bind_return _ _ _ _ _ Hnew), (bind_return _ _ _ _ _ Hrun).
    unfold ET.write. by rewrite (bind_return _ _ _ _ _ Hread). }
  destruct Hsame as (Ho & Hl & Hw & Hf).
  eexists _, _. split.
  { destruct s as [n ws cs0 os0 wrs0]. apply (Hsave cs0 os0 wrs0). }
  simpl. split; [by rewrite Hf|].
  split; [exact Ho|]. split; [exact Hl|]. split; [exact Hw|].
  split; [reflexivity|]. split; [reflexivity|]. split; [reflexivity|].
  split.
  { unfold store_node, node_children. rewrite length_map.
    unfold snapshot in Hsnap. by apply mapM_Some_1, Forall2_length in Hsnap. }
  split.
  { intros i w Hi. destruct (snapshot_lookup _ _ _ _ _ Hsnap Hi) as (ps & Hps & Hc).
    exists ps. split; [exact Hps|]. unfold store_node, node_children.
    change (map (warehouse_node str_float) content)
      with (warehouse_node str_float <$> content).
    by rewrite list_lookup_fmap, Hc. }
  split; [apply tags_store_node|].
  split; [exact Hsave|]. apply str_decimal.
Qed.

Lemma save_to_xml_spec_witness :
  ∃ h', EStore.save_to_xml demo_str_float demo_store "estore_data.xml" demo_heap
          = Some (Return tt, h')
        ∧ files h' !! "estore_data.xml" =
            Some (XmlDoc
              (Node "estore" [("name", "TechStore")]
                 [Node "warehouse" [("location", "Moscow")]
                    [Node "product"
                       [("name", "Laptop"); ("price", "75000.0"); ("quantity", "10")] [];
                     Node "product"
                       [("name", "Phone"); ("price", "45000.0"); ("quantity", "15")] []]])).
Proof.
  destruct (save_to_xml_spec demo_str_float demo_heap demo_store "estore_data.xml"
              [("Moscow", [laptop; phone])] eq_refl)
    as (h' & doc & Hrun & Hfiles & _ & _ & _ & -> & _).
  exists h'. split; [exact Hrun|].
  rewrite Hfiles. apply lookup_insert_eq.
Defined.

(** ** The record export *)

Lemma product_entry_lookup h r p :
  objs h !! r = Some p → EStore.product_entry r h = Some (Return (product_record p), h).
Proof.
  intros Hr. unfold EStore.product_entry.
  by rewrite !(bind_return _ _ _ _ _ (getattr_lookup _ _ _ _ Hr)).
Qed.

Lemma product_entries_lookup h refs ps :
  mapM (λ r, objs h !! r) refs = Some ps →
  comprehension EStore.product_entry refs h = Some (Return (map product_record ps), h).
Proof.
  intros Hrefs. apply comprehension_pure, Forall2_fmap_r.
  apply mapM_Some_1 in Hrefs. eapply Forall2_impl; [exact Hrefs|].
  intros r p Hr. by apply product_entry_lookup.
Qed.

Lemma warehouse_entry_lookup h w ps wrs :
  products_of h w = Some ps → wlists h !! Warehouse.workers w = Some wrs →
  EStore.warehouse_entry w h =
    Some (Return (warehouse_record (Warehouse.location w, ps, wrs)), h).
Proof.
  unfold products_of. intros Hps Hwrs.
  apply bind_Some in Hps as (refs & Hrefs & Hps).
  unfold EStore.warehouse_entry.
  rewrite (bind_return _ _ _ _ _ (list_items_lookup _ _ _ Hrefs)).
  rewrite (bind_return _ _ _ _ _ (product_entries_lookup _ _ _ Hps)).
  unfold bind, wlist_items. by rewrite Hwrs.
Qed.

Lemma warehouse_entries_lookup h ws content :
  warehouse_records h ws = Some content →
  comprehension EStore.warehouse_entry ws h = Some (Return (map warehouse_record content), h).
Proof.
  intros Hws. apply comprehension_pure, Forall2_fmap_r.
  apply mapM_Some_1 in Hws. eapply Forall2_impl; [exact Hws|].
  intros w [[loc0 ps] wrs] Hw. simpl in Hw.
  apply bind_Some in Hw as (ps' & Hps & Hw).
  apply bind_Some in Hw as (wrs' & Hwrs & [= <- <- <-]).
  by apply warehouse_entry_lookup.
Qed.

Lemma order_entries_lookup h os content :
  order_records h os = Some content →
  comprehension EStore.order_entry os h = Some (Return (map order_record content), h).
Proof.
  intros Hos. apply comprehension_pure, Forall2_fmap_r.
  apply mapM_Some_1 in Hos. eapply Forall2_impl; [exact Hos|].
  intros o [[c pn] q] Ho. simpl in Ho.
  apply bind_Some in Ho as (p & Hp & [= <- <- <-]).
  unfold EStore.order_entry.
  by rewrite (bind_return _ _ _ _ _ (getattr_lookup _ _ _ _ Hp)).
Qed.

Lemma warehouse_records_lookup h ws content i w :
  warehouse_records h ws = Some content → ws !! i = Some w →
  ∃ ps wrs, products_of h w = Some ps
            ∧ wlists h !! Warehouse.workers w = Some wrs
            ∧ content !! i = Some (Warehouse.location w, ps, wrs).
Proof.
  unfold warehouse_records. intros Hws Hi. apply mapM_Some_1 in Hws.
  destruct (Forall2_lookup_l _ _ _ _ _ Hws Hi) as ([[loc0 ps] wrs] & Hc & Hw).
  simpl in Hw. apply bind_Some in Hw as (ps' & Hps & Hw).
  apply bind_Some in Hw as (wrs' & Hwrs & [= <- <- <-]). by exists ps', wrs'.
Qed.

Lemma order_records_lookup h os content i o :
  order_records h os = Some content → os !! i = Some o →
  ∃ p, objs h !! Order.product o = Some p
       ∧ content !! i =
           Some (Customer.name (Order.customer o), Product.name p, Order.quantity o).
Proof.
  unfold order_records. intros Hos Hi. apply mapM_Some_1 in Hos.
  destruct (Forall2_lookup_l _ _ _ _ _ Hos Hi) as ([[c pn] q] & Hc & Ho).
  simpl in Ho. apply bind_Some in Ho as (p & Hp & [= <- <- <-]). by exists p.
Qed.

Lemma lookup_map {A B} (f : A → B) (l : list A) (i : nat) :
  map f l !! i = f <$> l !! i.
Proof. change (map f l) with (f <$> l). apply list_lookup_fmap. Qed.

(** C7: [save_to_json] writes, under the file name, a dictionary with the
    keys [name], [warehouses], [customers], [orders] in this order.  The
    [warehouses] array has one entry per warehouse, [{location, products,
    workers}]; its [products] array has one [{name, price, quantity}] per
    product with the values of the object, its [workers] array one
    [{name, role}] per worker.  [customers] holds [{name, email}] per
    customer, and [orders] holds [{customer, product, quantity}] per order
    with the names of the referenced customer and product.  The heap is
    otherwise unchanged. *)
Theorem save_to_json_spec
    (h : Heap) (s : EStore.t) (filename : string)
    (wcontent : list (string * list Product.t * list Worker.t))
    (ocontent : list (string * string * Z)) :
  warehouse_records h (EStore.warehouses s) = Some wcontent →
  order_records h (EStore.orders s) = Some ocontent →
  ∃ data ws cs os,
    EStore.save_to_json s filename h =
      Some (Return tt, set_files <[filename := JsonDoc data]> h)
    ∧ data = PyDict [("name", PyStr (EStore.name s)); ("warehouses", PyList ws);
                     ("customers", PyList cs); ("orders", PyList os)]
    ∧ data = store_record (EStore.name s) wcontent (EStore.customers s) ocontent
    ∧ dict_keys [("name", PyStr (EStore.name s)); ("warehouses", PyList ws);
                 ("customers", PyList cs); ("orders", PyList os)]
      = ["name"; "warehouses"; "customers"; "orders"]
    ∧ length ws = length (EStore.warehouses s)
    ∧ (∀ i w, EStore.warehouses s !! i = Some w →
         ∃ ps wrs pl,
           products_of h w = Some ps
           ∧ wlists h !! Warehouse.workers w = Some wrs
           ∧ ws !! i = Some (PyDict [("location", PyStr (Warehouse.location w));
                                     ("products", PyList pl);
                                     ("workers", PyList (map worker_record wrs))])
           ∧ length pl = length ps
           ∧ (∀ j p, ps !! j = Some p →
                pl !! j = Some (PyDict [("name", PyStr (Product.name p));
                                        ("price", PyFloat (Product.price p));
                                        ("quantity", PyInt (Product.quantity p))])))
    ∧ length cs = length (EStore.customers s)
    ∧ (∀ i c, EStore.customers s !! i = Some c →
         cs !! i = Some (PyDict [("name", PyStr (Customer.name c));
                                 ("email", PyStr (Customer.email c))]))
    ∧ length os = length (EStore.orders s)
    ∧ (∀ i o, EStore.orders s !! i = Some o →
         ∃ p, objs h !! Order.product o = Some p
              ∧ os !! i = Some (PyDict [("customer", PyStr (Customer.name (Order.customer o)));
                                        ("product", PyStr (Product.name p));
                                        ("quantity", PyInt (Order.quantity o))])).
Proof.
  intros Hws Hos.
  exists (store_record (EStore.name s) wcontent (EStore.customers s) ocontent),
         (map warehouse_record wcontent),
         (map customer_record (EStore.customers s)),
         (map order_record ocontent).
  split.
  { unfold EStore.save_to_json.
    rewrite (bind_return _ _ _ _ _ (warehouse_entries_lookup _ _ _ Hws)).
    rewrite (bind_return _ _ _ _ _ (order_entries_lookup _ _ _ Hos)).
    reflexivity. }
  split; [reflexivity|]. split; [reflexivity|]. split; [reflexivity|].
  split.
  { rewrite length_map. unfold warehouse_records in Hws.
    by apply mapM_Some_1, Forall2_length in Hws. }
  split.
  { intros i w Hi.
    destruct (warehouse_records_lookup _ _ _ _ _ Hws Hi) as (ps & wrs & Hps & Hwrs & Hc).
    exists ps, wrs, (map product_record ps).
    split; [exact Hps|]. split; [exact Hwrs|].
    split; [by rewrite lookup_map, Hc|].
    split; [apply length_map|].
    intros j p Hj. by rewrite lookup_map, Hj. }
  split; [apply length_map|].
  split.
  { intros i c Hi. by rewrite lookup_map, Hi. }
  split.
  { rewrite length_map. unfold order_records in Hos.
    by apply mapM_Some_1, Forall2_length in Hos. }
  intros i o Hi.
  destruct (order_records_lookup _ _ _ _ _ Hos Hi) as (p & Hp & Hc).
  exists p. split; [exact Hp|]. by rewrite lookup_map, Hc.
Qed.

Lemma save_to_json_spec_witness :
  ∃ data ws cs os,
    EStore.save_to_json demo_store "estore_data.json" demo_heap =
      Some (Return tt, set_files <[ "estore_data.json" := JsonDoc data]> demo_heap)
    ∧ data = PyDict [("name", PyStr "TechStore"); ("warehouses", PyList ws);
                     ("customers", PyList cs); ("orders", PyList os)]
    ∧ ws = [PyDict [("location", PyStr "Moscow");
                    ("products",
                     PyList [PyDict [("name", PyStr "Laptop"); ("price", PyFloat 75000%float);
                                     ("quantity", PyInt 10)];
                             PyDict [("name", PyStr "Phone"); ("price", PyFloat 45000%float);
                                     ("quantity", PyInt 15)]]);
                    ("workers",
                     PyList [PyDict [("name", PyStr "Ivan");
                                     ("role", PyStr "warehouse manager")]])]]
    ∧ cs = [PyDict [("name", PyStr "Petr"); ("email", PyStr "petr@mail.ru")]]
    ∧ os = [PyDict [("customer", PyStr "Petr"); ("product", PyStr "Laptop");
                    ("quantity", PyInt 1)]].
Proof.
  destruct (save_to_json_spec demo_heap demo_store "estore_data.json"
              [("Moscow", [laptop; phone], [ivan])] [("Petr", "Laptop", 1%Z)]
              eq_refl eq_refl)
    as (data & ws & cs & os & Hrun & Hdata & Hrec & _).
  exists data, ws, cs, os. split; [exact Hrun|]. split; [exact Hdata|].
  rewrite Hdata in Hrec. injection Hrec as -> -> ->. done.
Defined.

(** ** The exceptions a call can end with *)

Section RaisesOnly.
Context (P : exn → Prop).

Lemma raises_only_step {A} (m : M A) :
  (∀ h e h', m h = Some (Raise e, h') → P e) → raises_only P m.
Proof.
  intros Hm h e. unfold raised.
  destruct (m h) as [[[a|e'] h']|] eqn:E; try done. intros [= <-]. eauto.
Qed.

Lemma raises_only_ret {A} (a : A) : raises_only P (ret a).
Proof. by apply raises_only_step. Qed.

Lemma raises_only_raise {A} e : P e → raises_only P (raise (A := A) e).
Proof. intros He. apply raises_only_step. by intros h e' h' [= <- _]. Qed.

Lemma raises_only_bind {A B} (m : M A) (k : A → M B) :
  raises_only P m → (∀ a, raises_only P (k a)) → raises_only P (bind m k).
Proof.
  intros Hm Hk h e. unfold bind.
  destruct (m h) as [[[a|e'] h']|] eqn:E.
  - apply Hk.
  - simpl. intros [= <-]. apply (Hm h). by rewrite E.
  - done.
Qed.

Lemma raises_only_getattr {A} p (field : Product.t → A) : raises_only P (getattr p field).
Proof. apply raises_only_step. unfold getattr. intros h e h'. by destruct (objs h !! p). Qed.

Lemma raises_only_setattr p upd : raises_only P (setattr p upd).
Proof. apply raises_only_step. unfold setattr. intros h e h'. by destruct (objs h !! p). Qed.

Lemma raises_only_list_items l : raises_only P (list_items l).
Proof. apply raises_only_step. unfold list_items. intros h e h'. by destruct (plists h !! l). Qed.

Lemma raises_only_list_store l xs : raises_only P (list_store l xs).
Proof. apply raises_only_step. unfold list_store. intros h e h'. by destruct (plists h !! l). Qed.

Lemma raises_only_wlist_items l : raises_only P (wlist_items l).
Proof. apply raises_only_step. unfold wlist_items. intros h e h'. by destruct (wlists h !! l). Qed.

Lemma raises_only_wlist_append l x : raises_only P (wlist_append l x).
Proof. apply raises_only_step. unfold wlist_append. intros h e h'. by destruct (wlists h !! l). Qed.

Lemma raises_only_list_append l x : raises_only P (list_append l x).
Proof.
  apply raises_only_bind; [apply raises_only_list_items|].
  intros xs. apply raises_only_list_store.
Qed.

Lemma raises_only_comprehension {A B} (f : A → M B) xs :
  (∀ x, raises_only P (f x)) → raises_only P (comprehension f xs).
Proof.
  intros Hf. induction xs as [|x xs IH]; simpl; [apply raises_only_ret|].
  apply raises_only_bind; [apply Hf|]. intros y.
  apply raises_only_bind; [apply IH|]. intros ys. apply raises_only_ret.
Qed.

Lemma raises_only_Element g extra : raises_only P (ET.Element g extra).
Proof. by apply raises_only_step. Qed.

Lemma raises_only_SubElement parent g extra : raises_only P (ET.SubElement parent g extra).
Proof.
  apply raises_only_bind; [apply raises_only_Element|]. intros e.
  apply raises_only_bind; [|intros _; apply raises_only_ret].
  apply raises_only_step. unfold ET.append. intros h e' h'.
  by destruct (elems h !! parent).
Qed.

Lemma raises_only_read_tree depth : ∀ e, raises_only P (ET.read_tree depth e).
Proof.
  induction depth as [|depth IH]; intros e h x; simpl; [done|].
  destruct (elems h !! e) as [o|]; [|done].
  apply (raises_only_bind (comprehension (ET.read_tree depth) (children o))).
  - by apply raises_only_comprehension.
  - intros cs. apply raises_only_ret.
Qed.

Lemma raises_only_write root filename : raises_only P (ET.write root filename).
Proof.
  apply raises_only_bind; [apply raises_only_read_tree|].
  intros doc. by apply raises_only_step.
Qed.
End RaisesOnly.

Lemma update_product_loop_raises n x todo :
  raises_only (λ e, e = ProductNotFoundError (not_found_msg n))
    (Warehouse.update_product_loop todo n x).
Proof.
  induction todo as [|p todo IH]; simpl; [by apply raises_only_raise|].
  apply raises_only_bind; [apply raises_only_getattr|]. intros p_name.
  case_decide; [apply raises_only_setattr|apply IH].
Qed.

Lemma remove_first_elem_of (x : loc) (xs : list loc) :
  x ∈ xs → is_Some (remove_first x xs).
Proof.
  induction xs as [|y xs IH]; [by intros ?%elem_of_nil|].
  intros [->|Hin]%elem_of_cons; simpl.
  - by rewrite decide_True.
  - case_decide; [done|]. destruct (IH Hin) as [ys ->]. done.
Qed.

Lemma remove_product_loop_raises h w n ps todo e :
  plists h !! Warehouse.products w = Some ps →
  todo ⊆ ps →
  raised (Warehouse.remove_product_loop w todo n h) = Some e →
  e = ProductNotFoundError (not_found_msg n).
Proof.
  intros Hps. induction todo as [|p todo IH]; intros Hsub; simpl.
  - by intros [= <-].
  - unfold bind at 1. unfold getattr. destruct (objs h !! p) as [o|]; [|done].
    case_decide.
    + unfold list_remove, bind, list_items. rewrite Hps.
      destruct (remove_first_elem_of p ps) as [ps' ->]; [set_solver|].
      unfold list_store. by rewrite Hps.
    + apply IH. set_solver.
Qed.

Lemma product_elements_raises str_float w_el ps :
  raises_only (λ _, False) (EStore.product_elements str_float w_el ps).
Proof.
  induction ps as [|p ps IH]; simpl; [apply raises_only_ret|].
  repeat (apply raises_only_bind; [apply raises_only_getattr|]; intros ?).
  apply raises_only_bind; [apply raises_only_SubElement|]. intros _. apply IH.
Qed.

Lemma warehouse_elements_raises str_float root ws :
  raises_only (λ _, False) (EStore.warehouse_elements str_float root ws).
Proof.
  induction ws as [|w ws IH]; simpl; [apply raises_only_ret|].
  apply raises_only_bind; [apply raises_only_SubElement|]. intros w_el.
  apply raises_only_bind; [apply raises_only_list_items|]. intros ps.
  apply raises_only_bind; [apply product_elements_raises|]. intros _. apply IH.
Qed.

Lemma save_to_xml_raises str_float s filename :
  raises_only (λ _, False) (EStore.save_to_xml str_float s filename).
Proof.
  apply raises_only_bind; [apply raises_only_Element|]. intros root.
  apply raises_only_bind; [apply warehouse_elements_raises|]. intros _.
  apply raises_only_write.
Qed.

Lemma save_to_json_raises s filename :
  raises_only (λ _, False) (EStore.save_to_json s filename).
Proof.
  apply raises_only_bind.
  { apply raises_only_comprehension. intros w.
    apply raises_only_bind; [apply raises_only_list_items|]. intros ps.
    apply raises_only_bind.
    { apply raises_only_comprehension. intros p.
      repeat (apply raises_only_bind; [apply raises_only_getattr|]; intros ?).
      apply raises_only_ret. }
    intros products.
    apply raises_only_bind; [apply raises_only_wlist_items|]. intros wrs.
    apply raises_only_ret. }
  intros ws. apply raises_only_bind.
  { apply raises_only_comprehension. intros o.
    apply raises_only_bind; [apply raises_only_getattr|]. intros p_name.
    apply raises_only_ret. }
  intros os. by apply raises_only_step.
Qed.

Lemma process_order_raises o :
  raises_only
    (λ e, ∃ p_name, e = InsufficientStockError ("Недостаточно товара " +:+ p_name))
    (Order.process_order o).
Proof.
  apply raises_only_bind; [apply raises_only_getattr|]. intros stock0.
  destruct (Order.quantity o >? stock0)%Z.
  - apply raises_only_bind; [apply raises_only_getattr|]. intros p_name.
    apply raises_only_raise. by exists p_name.
  - apply raises_only_setattr.
Qed.

Lemma exception_of_may_raise str_float c h e :
  exception_of str_float c h = Some e → may_raise c e.
Proof.
  destruct c; simpl; try done.
  - apply (raises_only_list_append (λ _, False)).
  - intros He. apply (raises_only_bind _ _ _ (raises_only_list_items _ _)
                        (λ ps, update_product_loop_raises name new_price ps) h e He).
  - unfold Warehouse.remove_product, bind at 1, list_items.
    destruct (plists h !! Warehouse.products self) as [ps|] eqn:Hps; [|done].
    by apply remove_product_loop_raises with ps.
  - apply (raises_only_wlist_append (λ _, False)).
  - apply process_order_raises.
  - apply save_to_json_raises.
  - apply save_to_xml_raises.
Qed.

(** C8: no constructor or method of the program raises [InvalidOrderError],
    whatever its arguments and the heap: [update_product] and
    [remove_product] raise nothing but [ProductNotFoundError],
    [process_order] nothing but [InsufficientStockError], and the others
    never raise.  [InvalidOrderError] is a [StoreError] all the same. *)
Theorem InvalidOrderError_never_raised
    (str_float : float → string) (c : call) (h : Heap) (msg : string) :
  exception_of str_float c h ≠ Some (InvalidOrderError msg)
  ∧ (∀ e, exception_of str_float c h = Some e → may_raise c e ∧ not_invalid_order e)
  ∧ is_StoreError (InvalidOrderError msg) = true.
Proof.
  assert (Hno : ∀ e, may_raise c e → not_invalid_order e).
  { intros e He msg' ->. destruct c; simpl in He; try done. by destruct He. }
  split; [|split; [|reflexivity]].
  - intros He. apply exception_of_may_raise in He. by apply (Hno _ He msg).
  - intros e He. apply exception_of_may_raise in He. eauto.
Qed.

(** On the warehouse that holds only the laptop, [remove_product("Phone")]
    raises [ProductNotFoundError], which is not [InvalidOrderError]. *)
Lemma InvalidOrderError_never_raised_witness :
  exception_of demo_str_float (Warehouse_remove_product moscow "Phone") laptop_heap
    = Some (ProductNotFoundError "Товар 'Phone' не найден")
  ∧ may_raise (Warehouse_remove_product moscow "Phone")
      (ProductNotFoundError "Товар 'Phone' не найден")
  ∧ not_invalid_order (ProductNotFoundError "Товар 'Phone' не найден").
Proof.
  destruct (InvalidOrderError_never_raised demo_str_float
              (Warehouse_remove_product moscow "Phone") laptop_heap "Phone")
    as (_ & Hall & _).
  split; [reflexivity|]. apply Hall. reflexivity.
Defined.

(** ** The driver, run on the empty heap *)

Example main_runs :
  ∃ store h',
    main demo_str_float empty_heap = Some (Return store, h')
    ∧ length (EStore.warehouses store) = 1%nat
    ∧ (Product.quantity <$> objs h' !! 1%positive) = Some 9%Z
    ∧ plists h' !! 1%positive = Some [1%positive; 2%positive]
    ∧ files h' !! "estore_data.xml" =
        Some (XmlDoc
          (Node "estore" [("name", "TechStore")]
             [Node "warehouse" [("location", "Москва")]
                [Node "product"
                   [("name", "Ноутбук"); ("price", "75000.0"); ("quantity", "9")] [];
                 Node "product"
                   [("name", "Смартфон"); ("price", "45000.0"); ("quantity", "15")] []]])).
Proof. eexists _, _. split; [vm_compute; reflexivity|]. repeat split. Qed.

(** * Further properties *)

(** ** Heap updates *)

Lemma set_plists_twice h l xs ys :
  set_plists <[l := ys]> (set_plists <[l := xs]> h) = set_plists <[l := ys]> h.
Proof. unfold set_plists. simpl. by rewrite insert_insert_eq. Qed.

Lemma set_plists_same h l xs :
  plists h !! l = Some xs → set_plists <[l := xs]> h = h.
Proof. destruct h. unfold set_plists. simpl. intros Hl. by rewrite insert_id. Qed.

Lemma set_objs_twice h l v v' :
  set_objs <[l := v']> (set_objs <[l := v]> h) = set_objs <[l := v']> h.
Proof. unfold set_objs. simpl. by rewrite insert_insert_eq. Qed.

Lemma set_files_twice h f d d' :
  set_files <[f := d']> (set_files <[f := d]> h) = set_files <[f := d']> h.
Proof. unfold set_files. simpl. by rewrite insert_insert_eq. Qed.

Lemma other_name_set_plists h f n l :
  other_name (set_plists f h) n l ↔ other_name h n l.
Proof. done. Qed.

(** Changing the object that bears the name does not touch the others. *)
Lemma other_name_set_objs h n p o v l :
  objs h !! p = Some o → Product.name o = n →
  other_name h n l → other_name (set_objs <[p := v]> h) n l.
Proof.
  intros Hp Hn (ol & Hl & Hne). exists ol. split; [|done]. simpl.
  rewrite lookup_insert_ne; [done|]. intros ->. congruence.
Qed.

Lemma add_product_lookup h w p ps :
  plists h !! Warehouse.products w = Some ps →
  Warehouse.add_product w p h =
    Some (Return tt, set_plists <[Warehouse.products w := ps ++ [p]]> h).
Proof. apply list_append_lookup. Qed.

(** ** Warehouse: how the product operations compose *)

(** X1: a product added under a name that no product of the warehouse bears
    is the one [update_product] finds by that name: its price is set, the
    list is the old one with the product at the end, and no other object
    changes. *)
Theorem add_product_then_update_product
    (h : Heap) (w : Warehouse.t) (ps : list loc) (p : loc) (o : Product.t) (x : float) :
  plists h !! Warehouse.products w = Some ps →
  objs h !! p = Some o →
  Forall (other_name h (Product.name o)) ps →
  (Warehouse.add_product w p ;;; Warehouse.update_product w (Product.name o) x) h =
    Some (Return tt,
          set_objs <[p := Product.with_price o x]>
            (set_plists <[Warehouse.products w := ps ++ [p]]> h)).
Proof.
  intros Hps Hp Hother.
  rewrite (bind_return _ _ _ _ _ (add_product_lookup _ _ p _ Hps)).
  apply (update_product_found _ w (Product.name o) (ps ++ [p])) with ps [];
    [simpl; apply lookup_insert_eq | done | exact Hother | exact Hp | done].
Qed.

Lemma add_product_then_update_product_witness :
  (Warehouse.add_product moscow 2%positive ;;;
   Warehouse.update_product moscow "Phone" 39990%float) laptop_heap_with_phone =
  Some (Return tt,
        set_objs <[2%positive := Product.with_price phone 39990%float]>
          (set_plists <[1%positive := [1%positive] ++ [2%positive]]>
             laptop_heap_with_phone)).
Proof.
  apply (add_product_then_update_product laptop_heap_with_phone
           moscow [1%positive] 2%positive phone 39990%float);
    [reflexivity | reflexivity |].
  repeat constructor. exists laptop. split; [reflexivity|discriminate].
Defined.

(** X2: adding a product and then removing it by its name gives back the
    heap as it was, when no product of the warehouse bore that name. *)
Theorem add_product_then_remove_product
    (h : Heap) (w : Warehouse.t) (ps : list loc) (p : loc) (o : Product.t) :
  plists h !! Warehouse.products w = Some ps →
  objs h !! p = Some o →
  Forall (other_name h (Product.name o)) ps →
  (Warehouse.add_product w p ;;; Warehouse.remove_product w (Product.name o)) h =
    Some (Return tt, h).
Proof.
  intros Hps Hp Hother.
  rewrite (bind_return _ _ _ _ _ (add_product_lookup _ _ p _ Hps)).
  rewrite (remove_product_found _ w (Product.name o) (ps ++ [p])
             (lookup_insert_eq _ _ _) ps p [] o); try done.
  rewrite app_nil_r, set_plists_twice. by rewrite set_plists_same.
Qed.

Lemma add_product_then_remove_product_witness :
  (Warehouse.add_product moscow 2%positive ;;; Warehouse.remove_product moscow "Phone")
    laptop_heap_with_phone = Some (Return tt, laptop_heap_with_phone).
Proof.
  apply (add_product_then_remove_product laptop_heap_with_phone moscow
           [1%positive] 2%positive phone); [reflexivity | reflexivity |].
  repeat constructor. exists laptop. split; [reflexivity|discriminate].
Defined.

(** X3: [add_product] does not look at names.  When a product is added under
    a name that an earlier product of the list already bears, lookups by
    that name keep finding the earlier one: [update_product] sets the earlier
    product's price and leaves the new one alone, [remove_product] takes the
    earlier one out and leaves the new one at the end of the list. *)
Theorem add_product_duplicate_name
    (h : Heap) (w : Warehouse.t) (n : string) (x : float)
    (before after : list loc) (p1 p2 : loc) (o1 o2 : Product.t) :
  plists h !! Warehouse.products w = Some (before ++ p1 :: after) →
  Forall (other_name h n) before →
  objs h !! p1 = Some o1 → Product.name o1 = n →
  objs h !! p2 = Some o2 → Product.name o2 = n →
  p2 ≠ p1 →
  (∃ h', (Warehouse.add_product w p2 ;;; Warehouse.update_product w n x) h
           = Some (Return tt, h')
         ∧ plists h' !! Warehouse.products w = Some (before ++ p1 :: after ++ [p2])
         ∧ objs h' !! p1 = Some (Product.with_price o1 x)
         ∧ objs h' !! p2 = Some o2)
  ∧ (∃ h', (Warehouse.add_product w p2 ;;; Warehouse.remove_product w n) h
             = Some (Return tt, h')
           ∧ plists h' !! Warehouse.products w = Some (before ++ after ++ [p2])
           ∧ objs h' = objs h).
Proof.
  intros Hps Hb Hp1 Hn1 Hp2 Hn2 Hne.
  set (h1 := set_plists <[Warehouse.products w := (before ++ p1 :: after) ++ [p2]]> h).
  assert (Hadd : Warehouse.add_product w p2 h = Some (Return tt, h1))
    by (by apply add_product_lookup).
  assert (Hps1 : plists h1 !! Warehouse.products w = Some (before ++ p1 :: after ++ [p2])).
  { simpl. rewrite lookup_insert_eq. by rewrite <- app_assoc. }
  split.
  - eexists. rewrite (bind_return _ _ _ _ _ Hadd).
    split; [by apply (update_product_found h1 w n _ Hps1 x before p1 (after ++ [p2]) o1)|].
    simpl. split; [by rewrite lookup_insert_eq, <- app_assoc|].
    split; [apply lookup_insert_eq|]. by rewrite lookup_insert_ne.
  - eexists. rewrite (bind_return _ _ _ _ _ Hadd).
    split; [by apply (remove_product_found h1 w n _ Hps1 before p1 (after ++ [p2]) o1)|].
    simpl. by rewrite lookup_insert_eq.
Qed.

Lemma add_product_duplicate_name_witness :
  (∃ h', (Warehouse.add_product moscow 3%positive ;;;
          Warehouse.update_product moscow "Laptop" 1%float) twin_heap
           = Some (Return tt, h')
         ∧ plists h' !! 1%positive = Some ([2%positive] ++ 1%positive :: [] ++ [3%positive])
         ∧ objs h' !! 1%positive = Some (Product.with_price laptop 1%float)
         ∧ objs h' !! 3%positive = Some laptop_pro)
  ∧ (∃ h', (Warehouse.add_product moscow 3%positive ;;;
            Warehouse.remove_product moscow "Laptop") twin_heap
             = Some (Return tt, h')
           ∧ plists h' !! 1%positive = Some ([2%positive] ++ [] ++ [3%positive])
           ∧ objs h' = objs twin_heap).
Proof.
  apply (add_product_duplicate_name twin_heap moscow "Laptop" 1%float
           [2%positive] [] 1%positive 3%positive laptop laptop_pro);
    try reflexivity; [|discriminate].
  repeat constructor. exists phone. split; [reflexivity|discriminate].
Defined.

(** X4: of two price updates under one name the later wins: the heap after
    [update_product(n, x)] and then [update_product(n, y)] is the heap after
    [update_product(n, y)] alone.  So repeating an update changes nothing. *)
Theorem update_product_last_wins
    (h : Heap) (w : Warehouse.t) (n : string) (x y : float)
    (before after : list loc) (p : loc) (o : Product.t) :
  plists h !! Warehouse.products w = Some (before ++ p :: after) →
  Forall (other_name h n) before →
  objs h !! p = Some o → Product.name o = n →
  (Warehouse.update_product w n x ;;; Warehouse.update_product w n y) h =
    Warehouse.update_product w n y h
  ∧ Warehouse.update_product w n y h =
      Some (Return tt, set_objs <[p := Product.with_price o y]> h).
Proof.
  intros Hps Hb Hp Hn.
  rewrite (bind_return _ _ _ _ _
             (update_product_found h w n _ Hps x before p after o eq_refl Hb Hp Hn)).
  rewrite (update_product_found h w n _ Hps y before p after o eq_refl Hb Hp Hn).
  split; [|done].
  rewrite (update_product_found (set_objs <[p := Product.with_price o x]> h) w n
             (before ++ p :: after) Hps y before p after (Product.with_price o x)
             eq_refl).
  - by rewrite set_objs_twice.
  - eapply Forall_impl; [exact Hb|]. intros l Hl. by eapply other_name_set_objs.
  - simpl. apply lookup_insert_eq.
  - done.
Qed.

Lemma update_product_last_wins_witness :
  (Warehouse.update_product moscow "Phone" 1%float ;;;
   Warehouse.update_product moscow "Phone" 39990%float) shelf_heap =
    Warehouse.update_product moscow "Phone" 39990%float shelf_heap
  ∧ Warehouse.update_product moscow "Phone" 39990%float shelf_heap =
      Some (Return tt,
            set_objs <[2%positive := Product.with_price phone 39990%float]> shelf_heap).
Proof.
  apply (update_product_last_wins shelf_heap moscow "Phone" 1%float 39990%float
           [1%positive] [1%positive] 2%positive phone); try reflexivity.
  repeat constructor. exists laptop. split; [reflexivity|discriminate].
Defined.

(** X5: once the only product called [n] has been removed, the name is gone:
    [update_product(n, x)] and a second [remove_product(n)] both raise
    [ProductNotFoundError] and change nothing. *)
Theorem remove_product_then_not_found
    (h : Heap) (w : Warehouse.t) (n : string) (x : float)
    (before after : list loc) (p : loc) (o : Product.t) :
  plists h !! Warehouse.products w = Some (before ++ p :: after) →
  Forall (other_name h n) before →
  Forall (other_name h n) after →
  objs h !! p = Some o → Product.name o = n →
  ∃ h',
    Warehouse.remove_product w n h = Some (Return tt, h')
    ∧ plists h' !! Warehouse.products w = Some (before ++ after)
    ∧ Warehouse.update_product w n x h' =
        Some (Raise (ProductNotFoundError (not_found_msg n)), h')
    ∧ Warehouse.remove_product w n h' =
        Some (Raise (ProductNotFoundError (not_found_msg n)), h').
Proof.
  intros Hps Hb Ha Hp Hn.
  set (h' := set_plists <[Warehouse.products w := before ++ after]> h).
  assert (Hps' : plists h' !! Warehouse.products w = Some (before ++ after))
    by (simpl; apply lookup_insert_eq).
  assert (Hall : Forall (other_name h' n) (before ++ after))
    by (apply Forall_app; split; assumption).
  exists h'. split; [by apply (remove_product_found h w n _ Hps before p after o)|].
  split; [exact Hps'|].
  split; [by apply (update_product_missing h' w n _ Hps')
         |by apply (remove_product_missing h' w n _ Hps')].
Qed.

Lemma remove_product_then_not_found_witness :
  ∃ h',
    Warehouse.remove_product moscow "Phone" shelf_heap = Some (Return tt, h')
    ∧ plists h' !! 1%positive = Some ([1%positive] ++ [1%positive])
    ∧ Warehouse.update_product moscow "Phone" 1%float h' =
        Some (Raise (ProductNotFoundError "Товар 'Phone' не найден"), h')
    ∧ Warehouse.remove_product moscow "Phone" h' =
        Some (Raise (ProductNotFoundError "Товар 'Phone' не найден"), h').
Proof.
  apply (remove_product_then_not_found shelf_heap moscow "Phone" 1%float
           [1%positive] [1%positive] 2%positive phone); try reflexivity;
    repeat constructor; exists laptop; (split; [reflexivity|discriminate]).
Defined.

(** ** Orders: sequences and shared products *)

Lemma with_quantity_same (p : Product.t) : Product.with_quantity p (Product.quantity p) = p.
Proof. by destruct p. Qed.

Lemma set_objs_same h l p :
  objs h !! l = Some p → set_objs <[l := p]> h = h.
Proof. destruct h. unfold set_objs. simpl. intros Hl. by rewrite insert_id. Qed.

Lemma total_quantity_cons o os :
  total_quantity (o :: os) = (Order.quantity o + total_quantity os)%Z.
Proof. reflexivity. Qed.

Lemma total_quantity_nonneg l os :
  Forall (λ o, Order.product o = l ∧ (0 ≤ Order.quantity o)%Z) os →
  (0 ≤ total_quantity os)%Z.
Proof.
  induction 1 as [|o os [_ Hq] _ IH]; [done|]. rewrite total_quantity_cons. lia.
Qed.

Lemma process_all_enough (l : loc) (os : list Order.t) : ∀ h p,
  objs h !! l = Some p →
  Forall (λ o, Order.product o = l ∧ (0 ≤ Order.quantity o)%Z) os →
  (total_quantity os ≤ Product.quantity p)%Z →
  process_all os h =
    Some (Return tt,
          set_objs <[l := Product.with_quantity p (Product.quantity p - total_quantity os)]> h).
Proof.
  induction os as [|o os IH]; intros h p Hp Hos Hsum.
  - cbn. rewrite Z.sub_0_r, with_quantity_same. by rewrite set_objs_same.
  - apply Forall_cons in Hos as [[Hl Hq] Hos]. rewrite total_quantity_cons in *.
    pose proof (total_quantity_nonneg _ _ Hos) as Hnonneg.
    assert (Hpo : objs h !! Order.product o = Some p) by (by rewrite Hl).
    cbn [process_all].
    rewrite (bind_return _ _ _ _ _ (process_order_enough h o p Hpo ltac:(lia))).
    rewrite Hl.
    rewrite (IH _ (Product.with_quantity p (Product.quantity p - Order.quantity o)));
      [|simpl; apply lookup_insert_eq|exact Hos|simpl; lia].
    rewrite set_objs_twice. cbn [Product.quantity Product.with_quantity Product.name
                                 Product.price].
    replace (Product.quantity p - Order.quantity o - total_quantity os)%Z
      with (Product.quantity p - (Order.quantity o + total_quantity os))%Z by lia.
    reflexivity.
Qed.

(** X6: orders for one product, each for a non-negative quantity and together
    for no more than the stock, all succeed when processed in a row, and the
    stock goes down by their sum; nothing else changes. *)
Theorem process_all_decrements_by_sum
    (h : Heap) (l : loc) (p : Product.t) (os : list Order.t) :
  objs h !! l = Some p →
  Forall (λ o, Order.product o = l ∧ (0 ≤ Order.quantity o)%Z) os →
  (total_quantity os ≤ Product.quantity p)%Z →
  ∃ h',
    process_all os h = Some (Return tt, h')
    ∧ stock h' l = Some (Product.quantity p - total_quantity os)%Z
    ∧ h' = set_objs
             <[l := Product.with_quantity p (Product.quantity p - total_quantity os)]> h.
Proof.
  intros Hp Hos Hsum. eexists. split; [by apply process_all_enough|].
  split; [|reflexivity]. apply stock_set_objs_same.
Qed.

Lemma process_all_decrements_by_sum_witness :
  ∃ h',
    process_all [Order.mk petr 1%positive 4; Order.mk petr 1%positive 0;
                 Order.mk petr 1%positive 6] laptop_heap = Some (Return tt, h')
    ∧ stock h' 1%positive = Some (10 - 10)%Z
    ∧ h' = set_objs <[1%positive := Product.with_quantity laptop (10 - 10)]> laptop_heap.
Proof.
  apply (process_all_decrements_by_sum laptop_heap 1%positive laptop
           [Order.mk petr 1%positive 4; Order.mk petr 1%positive 0;
            Order.mk petr 1%positive 6]);
    [reflexivity | repeat constructor; simpl; lia | simpl; lia].
Defined.

(** X7: stock is not reserved.  When two orders for one product could each be
    served alone but not both, the one processed first succeeds and the other
    raises [InsufficientStockError]; which of them is served depends on the
    order of the calls alone. *)
Theorem process_order_first_come_first_served
    (h : Heap) (o1 o2 : Order.t) (p : Product.t) :
  objs h !! Order.product o1 = Some p →
  Order.product o2 = Order.product o1 →
  (Order.quantity o1 ≤ Product.quantity p)%Z →
  (Order.quantity o2 ≤ Product.quantity p)%Z →
  (Order.quantity o1 + Order.quantity o2 > Product.quantity p)%Z →
  let msg := "Недостаточно товара " +:+ Product.name p in
  (∃ h1, Order.process_order o1 h = Some (Return tt, h1)
         ∧ Order.process_order o2 h1 = Some (Raise (InsufficientStockError msg), h1)
         ∧ stock h1 (Order.product o1)
           = Some (Product.quantity p - Order.quantity o1)%Z)
  ∧ (∃ h2, Order.process_order o2 h = Some (Return tt, h2)
           ∧ Order.process_order o1 h2 = Some (Raise (InsufficientStockError msg), h2)
           ∧ stock h2 (Order.product o1)
             = Some (Product.quantity p - Order.quantity o2)%Z).
Proof.
  intros Hp Hsame Hq1 Hq2 Hboth msg.
  assert (Hp2 : objs h !! Order.product o2 = Some p) by (by rewrite Hsame).
  split.
  - eexists. split; [by apply process_order_enough|].
    split; [|apply stock_set_objs_same].
    apply (process_order_short _ o2
             (Product.with_quantity p (Product.quantity p - Order.quantity o1))).
    + rewrite Hsame. simpl. apply lookup_insert_eq.
    + simpl. lia.
  - eexists. split; [by apply process_order_enough|].
    split; [|rewrite <- Hsame; apply stock_set_objs_same].
    apply (process_order_short _ o1
             (Product.with_quantity p (Product.quantity p - Order.quantity o2))).
    + rewrite Hsame. simpl. apply lookup_insert_eq.
    + simpl. lia.
Qed.

Lemma process_order_first_come_first_served_witness :
  (∃ h1, Order.process_order (Order.mk petr 1%positive 7) laptop_heap = Some (Return tt, h1)
         ∧ Order.process_order (Order.mk petr 1%positive 6) h1
           = Some (Raise (InsufficientStockError "Недостаточно товара Laptop"), h1)
         ∧ stock h1 1%positive = Some (10 - 7)%Z)
  ∧ (∃ h2, Order.process_order (Order.mk petr 1%positive 6) laptop_heap
             = Some (Return tt, h2)
           ∧ Order.process_order (Order.mk petr 1%positive 7) h2
             = Some (Raise (InsufficientStockError "Недостаточно товара Laptop"), h2)
           ∧ stock h2 1%positive = Some (10 - 6)%Z).
Proof.
  apply (process_order_first_come_first_served laptop_heap
           (Order.mk petr 1%positive 7) (Order.mk petr 1%positive 6) laptop);
    [reflexivity | reflexivity | simpl; lia | simpl; lia | simpl; lia].
Defined.

Lemma mapM_lookup_insert (m : gmap loc Product.t) (l : loc) (v : Product.t)
    (refs : list loc) (old : list Product.t) :
  mapM (λ r, m !! r) refs = Some old →
  mapM (λ r, <[l := v]> m !! r) refs = Some (products_after l v refs old).
Proof.
  intros Hold. apply mapM_Some_1 in Hold. apply mapM_Some_2.
  induction Hold as [|r o refs old Hr _ IH]; simpl; constructor; [|exact IH].
  case_decide as Hrl.
  - subst. apply lookup_insert_eq.
  - by rewrite lookup_insert_ne.
Qed.

(** X8: an order and a warehouse share the Product object.  After a served
    order the warehouse's list is the same list of references, and read
    through it the product shows the reduced stock at every position that
    refers to it, the other products being as before. *)
Theorem process_order_seen_through_warehouse
    (h : Heap) (w : Warehouse.t) (o : Order.t) (p : Product.t) (old : list Product.t) :
  products_of h w = Some old →
  objs h !! Order.product o = Some p →
  (Order.quantity o ≤ Product.quantity p)%Z →
  ∃ h' refs,
    Order.process_order o h = Some (Return tt, h')
    ∧ plists h !! Warehouse.products w = Some refs
    ∧ plists h' !! Warehouse.products w = Some refs
    ∧ products_of h' w =
        Some (products_after (Order.product o)
                (Product.with_quantity p (Product.quantity p - Order.quantity o))
                refs old)
    ∧ (∀ i, refs !! i = Some (Order.product o) →
         Product.quantity <$> (products_of h' w ≫= (.!! i))
           = Some (Product.quantity p - Order.quantity o)%Z).
Proof.
  intros Hold Hp Hq. unfold products_of in Hold.
  apply bind_Some in Hold as (refs & Hrefs & Hold).
  eexists _, refs. split; [by apply process_order_enough|].
  split; [exact Hrefs|]. split; [exact Hrefs|].
  assert (Hnew : products_of
            (set_objs <[Order.product o :=
               Product.with_quantity p (Product.quantity p - Order.quantity o)]> h) w
          = Some (products_after (Order.product o)
                    (Product.with_quantity p (Product.quantity p - Order.quantity o))
                    refs old)).
  { unfold products_of. simpl. rewrite Hrefs. simpl. by apply mapM_lookup_insert. }
  split; [exact Hnew|].
  intros i Hi. rewrite Hnew. simpl.
  assert (Hlen : length refs = length old)
    by (by apply mapM_Some_1, Forall2_length in Hold).
  destruct (lookup_lt_is_Some_2 old i) as [oi Hoi].
  { rewrite <- Hlen. by eapply lookup_lt_Some. }
  unfold products_after. rewrite lookup_zip_with, Hi, Hoi.
  simpl. by rewrite decide_True.
Qed.

Lemma process_order_seen_through_warehouse_witness :
  ∃ h' refs,
    Order.process_order (Order.mk petr 1%positive 4) shelf_heap = Some (Return tt, h')
    ∧ plists shelf_heap !! 1%positive = Some refs
    ∧ plists h' !! 1%positive = Some refs
    ∧ products_of h' moscow =
        Some (products_after 1%positive (Product.with_quantity laptop (10 - 4))
                refs [laptop; phone; laptop])
    ∧ (∀ i, refs !! i = Some 1%positive →
         Product.quantity <$> (products_of h' moscow ≫= (.!! i)) = Some (10 - 4)%Z).
Proof.
  apply (process_order_seen_through_warehouse shelf_heap moscow
           (Order.mk petr 1%positive 4) laptop [laptop; phone; laptop]);
    [reflexivity | reflexivity | simpl; lia].
Defined.

(** ** Exceptions that leave a method *)





(** ** Warehouse: the lists made by the constructor *)

Lemma warehouse_init_fresh location h :
  ∃ w, Warehouse.__init__ location h =
         Some (Return w,
               set_wlists <[Warehouse.workers w := []]>
                 (set_plists <[Warehouse.products w := []]> h))
       ∧ Warehouse.location w = location
       ∧ plists h !! Warehouse.products w = None
       ∧ wlists h !! Warehouse.workers w = None.
Proof.
  exists (Warehouse.mk location (fresh (dom (plists h))) (fresh (dom (wlists h)))).
  split; [reflexivity|]. split; [reflexivity|].
  split; apply not_elem_of_dom, is_fresh.
Qed.


(** ** The exporters as part of longer runs *)

Lemma save_to_json_run h s filename wcontent ocontent :
  warehouse_records h (EStore.warehouses s) = Some wcontent →
  order_records h (EStore.orders s) = Some ocontent →
  EStore.save_to_json s filename h =
    Some (Return tt,
          set_files <[filename :=
            JsonDoc (store_record (EStore.name s) wcontent (EStore.customers s) ocontent)]> h).
Proof.
  intros Hws Hos. unfold EStore.save_to_json.
  rewrite (bind_return _ _ _ _ _ (warehouse_entries_lookup _ _ _ Hws)).
  by rewrite (bind_return _ _ _ _ _ (order_entries_lookup _ _ _ Hos)).
Qed.

Lemma save_to_xml_run str_float h s filename content :
  snapshot h (EStore.warehouses s) = Some content →
  ∃ h', EStore.save_to_xml str_float s filename h = Some (Return tt, h')
        ∧ objs h' = objs h ∧ plists h' = plists h ∧ wlists h' = wlists h
        ∧ files h' =
            <[filename := XmlDoc (store_node str_float (EStore.name s) content)]> (files h).
Proof.
  intros Hsnap.
  set (root := fresh (dom (elems h))).
  set (h0 := set_elems <[root := mkElement "estore" [("name", EStore.name s)] []]> h).
  assert (Hroot0 : elems h0 !! root = Some (mkElement "estore" [("name", EStore.name s)] []))
    by (simpl; apply lookup_insert_eq).
  destruct (warehouse_elements_lookup str_float root (EStore.warehouses s) content h0 _ []
              Hsnap Hroot0) as (h1 & cs & Hrun & (Ho & Hl & Hw & Hf) & Hroot1 & Hcs & _).
  assert (Hread : ET.read_tree ET.recursion_limit root h1 =
                  Some (Return (store_node str_float (EStore.name s) content), h1)).
  { change ET.recursion_limit with (S (S (S 997))). by eapply read_tree_store. }
  eexists. split.
  { unfold EStore.save_to_xml.
    assert (Hnew : ET.Element "estore" [("name", EStore.name s)] h = Some (Return root, h0))
      by reflexivity.
    rewrite (bind_return _ _ _ _ _ Hnew), (bind_return _ _ _ _ _ Hrun).
    unfold ET.write. by rewrite (bind_return _ _ _ _ _ Hread). }
  simpl. by rewrite Hf.
Qed.

Lemma mapM_snoc {A B} (f : A → option B) (xs : list A) (ys : list B) (x : A) (y : B) :
  mapM f xs = Some ys → f x = Some y → mapM f (xs ++ [x]) = Some (ys ++ [y]).
Proof.
  intros Hxs Hx. apply mapM_Some_2, Forall2_app; [by apply mapM_Some_1|].
  by constructor.
Qed.

(** X11: a worker added to a warehouse appears at the end of that warehouse's
    [workers] array in the record export and leaves the markup export as it
    was.  A worker added to the store itself reaches neither export: both
    write exactly what they would have written without the call. *)
Theorem workers_in_the_exports
    (str_float : float → string) (h : Heap) (w : Warehouse.t) (wr : Worker.t)
    (ps : list Product.t) (wrs : list Worker.t) :
  products_of h w = Some ps →
  wlists h !! Warehouse.workers w = Some wrs →
  (Warehouse.add_worker w wr ;;; EStore.warehouse_entry w) h =
    Some (Return (PyDict [("location", PyStr (Warehouse.location w));
                          ("products", PyList (map product_record ps));
                          ("workers", PyList (map worker_record (wrs ++ [wr])))]),
          set_wlists <[Warehouse.workers w := wrs ++ [wr]]> h)
  ∧ (∀ s filename content,
       snapshot h (EStore.warehouses s) = Some content →
       ∃ h1 h2,
         (Warehouse.add_worker w wr ;;; EStore.save_to_xml str_float s filename) h
           = Some (Return tt, h1)
         ∧ EStore.save_to_xml str_float s filename h = Some (Return tt, h2)
         ∧ files h1 = files h2)
  ∧ (∀ s filename,
       (s' <- EStore.add_worker s wr ;; EStore.save_to_json s' filename) h
         = EStore.save_to_json s filename h
       ∧ (s' <- EStore.add_worker s wr ;; EStore.save_to_xml str_float s' filename) h
         = EStore.save_to_xml str_float s filename h).
Proof.
  intros Hps Hwrs.
  assert (Hadd : Warehouse.add_worker w wr h =
                 Some (Return tt, set_wlists <[Warehouse.workers w := wrs ++ [wr]]> h)).
  { unfold Warehouse.add_worker, wlist_append. by rewrite Hwrs. }
  split; [|split].
  - rewrite (bind_return _ _ _ _ _ Hadd).
    apply (warehouse_entry_lookup _ w ps (wrs ++ [wr])); [exact Hps|].
    simpl. apply lookup_insert_eq.
  - intros s filename content Hsnap.
    destruct (save_to_xml_run str_float
                (set_wlists <[Warehouse.workers w := wrs ++ [wr]]> h) s filename content
                Hsnap) as (h1 & Hrun1 & _ & _ & _ & Hf1).
    destruct (save_to_xml_run str_float h s filename content Hsnap)
      as (h2 & Hrun2 & _ & _ & _ & Hf2).
    exists h1, h2. rewrite (bind_return _ _ _ _ _ Hadd).
    split; [exact Hrun1|]. split; [exact Hrun2|]. by rewrite Hf1, Hf2.
  - intros s filename. split; reflexivity.
Qed.

Lemma workers_in_the_exports_witness :
  (Warehouse.add_worker moscow (Worker.mk "Olga" "picker") ;;;
   EStore.warehouse_entry moscow) demo_heap =
    Some (Return (PyDict [("location", PyStr "Moscow");
                          ("products", PyList (map product_record [laptop; phone]));
                          ("workers",
                           PyList (map worker_record ([ivan] ++ [Worker.mk "Olga" "picker"])))]),
          set_wlists <[1%positive := [ivan] ++ [Worker.mk "Olga" "picker"]]> demo_heap).
Proof.
  apply (workers_in_the_exports demo_str_float demo_heap moscow (Worker.mk "Olga" "picker")
           [laptop; phone] [ivan]); reflexivity.
Defined.

(** X12: the arrays of the record export follow the order of the [add_*]
    calls: a customer, an order or a warehouse added to the store is the last
    entry of its array, after the entries that were there.  [add_order] and
    [add_warehouse] accept what they are given: the order's customer need not
    be among the store's customers, nor its product in any warehouse. *)
Theorem added_entries_come_last
    (h : Heap) (s : EStore.t) (filename : string)
    (wcontent : list (string * list Product.t * list Worker.t))
    (ocontent : list (string * string * Z)) :
  warehouse_records h (EStore.warehouses s) = Some wcontent →
  order_records h (EStore.orders s) = Some ocontent →
  (∀ c,
     (s' <- EStore.add_customer s c ;; EStore.save_to_json s' filename) h =
       Some (Return tt,
             set_files <[filename :=
               JsonDoc (store_record (EStore.name s) wcontent
                          (EStore.customers s ++ [c]) ocontent)]> h))
  ∧ (∀ o p,
       objs h !! Order.product o = Some p →
       (s' <- EStore.add_order s o ;; EStore.save_to_json s' filename) h =
         Some (Return tt,
               set_files <[filename :=
                 JsonDoc (store_record (EStore.name s) wcontent (EStore.customers s)
                            (ocontent ++ [(Customer.name (Order.customer o),
                                           Product.name p, Order.quantity o)]))]> h))
  ∧ (∀ w ps wrs,
       products_of h w = Some ps →
       wlists h !! Warehouse.workers w = Some wrs →
       (s' <- EStore.add_warehouse s w ;; EStore.save_to_json s' filename) h =
         Some (Return tt,
               set_files <[filename :=
                 JsonDoc (store_record (EStore.name s)
                            (wcontent ++ [(Warehouse.location w, ps, wrs)])
                            (EStore.customers s) ocontent)]> h)).
Proof.
  intros Hws Hos. split; [|split].
  - intros c. apply (save_to_json_run h
      (EStore.mk (EStore.name s) (EStore.warehouses s) (EStore.customers s ++ [c])
         (EStore.orders s) (EStore.workers s)) filename wcontent ocontent Hws Hos).
  - intros o p Hp. apply (save_to_json_run h
      (EStore.mk (EStore.name s) (EStore.warehouses s) (EStore.customers s)
         (EStore.orders s ++ [o]) (EStore.workers s)) filename wcontent); [exact Hws|].
    apply mapM_snoc; [exact Hos|]. simpl. by rewrite Hp.
  - intros w ps wrs Hps Hwrs. apply (save_to_json_run h
      (EStore.mk (EStore.name s) (EStore.warehouses s ++ [w]) (EStore.customers s)
         (EStore.orders s) (EStore.workers s)) filename); [|exact Hos].
    apply mapM_snoc; [exact Hws|]. simpl. by rewrite Hps, Hwrs.
Qed.

Lemma added_entries_come_last_witness :
  (s' <- EStore.add_order demo_store (Order.mk (Customer.mk "Anna" "anna@mail.ru") 2%positive 3) ;;
   EStore.save_to_json s' "estore_data.json") demo_heap =
    Some (Return tt,
          set_files <[ "estore_data.json" :=
            JsonDoc (store_record "TechStore" [("Moscow", [laptop; phone], [ivan])] [petr]
                       ([("Petr", "Laptop", 1%Z)] ++ [("Anna", "Phone", 3%Z)]))]> demo_heap).
Proof.
  destruct (added_entries_come_last demo_heap demo_store "estore_data.json"
              [("Moscow", [laptop; phone], [ivan])] [("Petr", "Laptop", 1%Z)]
              eq_refl eq_refl) as (_ & Horder & _).
  apply (Horder (Order.mk (Customer.mk "Anna" "anna@mail.ru") 2%positive 3) phone).
  reflexivity.
Defined.

(** X13: an export replaces whatever the file held.  After two exports under
    one file name the file holds the document of the second, of either
    format, as if the first had never been written; products, lists and the
    other files are untouched. *)
Theorem export_overwrites_the_file
    (str_float : float → string) (h : Heap) (s1 s2 : EStore.t) (filename : string)
    (wc1 wc2 : list (string * list Product.t * list Worker.t))
    (oc1 oc2 : list (string * string * Z))
    (content1 content2 : list (string * list Product.t)) :
  warehouse_records h (EStore.warehouses s1) = Some wc1 →
  order_records h (EStore.orders s1) = Some oc1 →
  snapshot h (EStore.warehouses s1) = Some content1 →
  warehouse_records h (EStore.warehouses s2) = Some wc2 →
  order_records h (EStore.orders s2) = Some oc2 →
  snapshot h (EStore.warehouses s2) = Some content2 →
  (EStore.save_to_json s1 filename ;;; EStore.save_to_json s2 filename) h
    = EStore.save_to_json s2 filename h
  ∧ (∃ h', (EStore.save_to_xml str_float s1 filename ;;;
            EStore.save_to_json s2 filename) h = Some (Return tt, h')
           ∧ files h' =
               <[filename := JsonDoc (store_record (EStore.name s2) wc2
                                        (EStore.customers s2) oc2)]> (files h)
           ∧ objs h' = objs h ∧ plists h' = plists h ∧ wlists h' = wlists h)
  ∧ (∃ h', (EStore.save_to_json s1 filename ;;;
            EStore.save_to_xml str_float s2 filename) h = Some (Return tt, h')
           ∧ files h' =
               <[filename := XmlDoc (store_node str_float (EStore.name s2) content2)]>
                 (files h)
           ∧ objs h' = objs h ∧ plists h' = plists h ∧ wlists h' = wlists h)
  ∧ (∃ h', (EStore.save_to_xml str_float s1 filename ;;;
            EStore.save_to_xml str_float s2 filename) h = Some (Return tt, h')
           ∧ files h' =
               <[filename := XmlDoc (store_node str_float (EStore.name s2) content2)]>
                 (files h)
           ∧ objs h' = objs h ∧ plists h' = plists h ∧ wlists h' = wlists h).
Proof.
  intros Hw1 Ho1 Hc1 Hw2 Ho2 Hc2.
  pose proof (save_to_json_run h s1 filename wc1 oc1 Hw1 Ho1) as Hj1.
  destruct (save_to_xml_run str_float h s1 filename content1 Hc1)
    as (hx & Hx1 & Hxo & Hxl & Hxw & Hxf).
  split; [|split; [|split]].
  - rewrite (bind_return _ _ _ _ _ Hj1).
    rewrite (save_to_json_run h s2 filename wc2 oc2 Hw2 Ho2).
    rewrite (save_to_json_run (set_files _ h) s2 filename wc2 oc2 Hw2 Ho2).
    by rewrite set_files_twice.
  - eexists. rewrite (bind_return _ _ _ _ _ Hx1). split.
    + apply (save_to_json_run hx s2 filename wc2 oc2).
      * unfold warehouse_records, products_of. rewrite Hxo, Hxl, Hxw. exact Hw2.
      * unfold order_records. rewrite Hxo. exact Ho2.
    + simpl. by rewrite Hxf, insert_insert_eq.
  - destruct (save_to_xml_run str_float (set_files <[filename :=
                JsonDoc (store_record (EStore.name s1) wc1 (EStore.customers s1) oc1)]> h)
                s2 filename content2 Hc2) as (h' & Hrun & Ho & Hl & Hw & Hf).
    exists h'. rewrite (bind_return _ _ _ _ _ Hj1). split; [exact Hrun|].
    simpl in *. by rewrite Hf, insert_insert_eq.
  - destruct (save_to_xml_run str_float hx s2 filename content2)
      as (h' & Hrun & Ho & Hl & Hw & Hf).
    { unfold snapshot, products_of. rewrite Hxo, Hxl. exact Hc2. }
    exists h'. rewrite (bind_return _ _ _ _ _ Hx1). split; [exact Hrun|].
    rewrite Hf, Hxf, insert_insert_eq, Ho, Hl, Hw. done.
Qed.

Lemma export_overwrites_the_file_witness :
  (EStore.save_to_json (EStore.mk "Old" [] [] [] []) "estore_data.json" ;;;
   EStore.save_to_json demo_store "estore_data.json") demo_heap
    = EStore.save_to_json demo_store "estore_data.json" demo_heap.
Proof.
  apply (export_overwrites_the_file demo_str_float demo_heap
           (EStore.mk "Old" [] [] [] []) demo_store "estore_data.json"
           [] [("Moscow", [laptop; phone], [ivan])]
           [] [("Petr", "Laptop", 1%Z)]
           [] [("Moscow", [laptop; phone])]); reflexivity.
Defined.



(** ** The driver *)

Lemma new_product_fresh o h :
  ∃ p, new_product o h = Some (Return p, set_objs <[p := o]> h) ∧ objs h !! p = None.
Proof.
  exists (fresh (dom (objs h))). split; [reflexivity|]. apply not_elem_of_dom, is_fresh.
Qed.

Lemma try_except_StoreError_return (m : M unit) h h' :
  m h = Some (Return tt, h') → try_except_StoreError m h = Some (Return tt, h').
Proof. unfold try_except_StoreError. by intros ->. Qed.

(** X15: the driver script runs to its end on every heap: the order for one
    laptop is served, so its [except] branch is not taken.  It leaves a
    warehouse list with the laptop (9 units) and the phone (15 units), in this
    order, both export files with these products, and the products that
    existed before untouched. *)
Theorem main_runs_to_the_end (str_float : float → string) (h : Heap) :
  ∃ store h' warehouse laptop_ref phone_ref,
    main str_float h = Some (Return store, h')
    ∧ store = EStore.mk "TechStore" [warehouse] [Customer.mk "Петр" "petr@mail.ru"]
                [Order.mk (Customer.mk "Петр" "petr@mail.ru") laptop_ref 1] []
    ∧ Warehouse.location warehouse = "Москва"
    ∧ plists h' !! Warehouse.products warehouse = Some [laptop_ref; phone_ref]
    ∧ wlists h' !! Warehouse.workers warehouse = Some [Worker.mk "Иван" "менеджер склада"]
    ∧ objs h' !! laptop_ref = Some (Product.mk "Ноутбук" 75000%float 9)
    ∧ objs h' !! phone_ref = Some (Product.mk "Смартфон" 45000%float 15)
    ∧ files h' !! "estore_data.json" =
        Some (JsonDoc (store_record "TechStore"
                [("Москва",
                  [Product.mk "Ноутбук" 75000%float 9; Product.mk "Смартфон" 45000%float 15],
                  [Worker.mk "Иван" "менеджер склада"])]
                [Customer.mk "Петр" "petr@mail.ru"]
                [("Петр", "Ноутбук", 1%Z)]))
    ∧ files h' !! "estore_data.xml" =
        Some (XmlDoc (store_node str_float "TechStore"
                [("Москва",
                  [Product.mk "Ноутбук" 75000%float 9;
                   Product.mk "Смартфон" 45000%float 15])]))
    ∧ (∀ l o, objs h !! l = Some o → objs h' !! l = Some o)
    ∧ (∀ l xs, plists h !! l = Some xs → plists h' !! l = Some xs).
Proof.
  set (laptop0 := Product.mk "Ноутбук" 75000%float 10).
  set (phone0 := Product.mk "Смартфон" 45000%float 15).
  set (ivan0 := Worker.mk "Иван" "менеджер склада").
  set (petr0 := Customer.mk "Петр" "petr@mail.ru").
  destruct (warehouse_init_fresh "Москва" h) as (w & Hinit & Hloc & Hwp & Hwk).
  set (h1 := set_wlists <[Warehouse.workers w := []]>
               (set_plists <[Warehouse.products w := []]> h)) in *.
  destruct (new_product_fresh laptop0 h1) as (a & Hnew_a & Ha).
  set (h2 := set_objs <[a := laptop0]> h1) in *.
  destruct (new_product_fresh phone0 h2) as (b & Hnew_b & Hb).
  set (h3 := set_objs <[b := phone0]> h2) in *.
  assert (Hab : a ≠ b).
  { intros E. rewrite <- E in Hb. simpl in Hb. by rewrite lookup_insert_eq in Hb. }
  simpl in Ha, Hb. rewrite lookup_insert_ne in Hb by done.
  assert (Hadd_a : Warehouse.add_product w a h3 =
                   Some (Return tt, set_plists <[Warehouse.products w := [a]]> h3)).
  { apply (add_product_lookup h3 w a []). simpl. apply lookup_insert_eq. }
  set (h4 := set_plists <[Warehouse.products w := [a]]> h3) in *.
  assert (Hadd_b : Warehouse.add_product w b h4 =
                   Some (Return tt, set_plists <[Warehouse.products w := [a; b]]> h4)).
  { apply (add_product_lookup h4 w b [a]). simpl. apply lookup_insert_eq. }
  set (h5 := set_plists <[Warehouse.products w := [a; b]]> h4) in *.
  assert (Hadd_w : Warehouse.add_worker w ivan0 h5 =
                   Some (Return tt, set_wlists <[Warehouse.workers w := [ivan0]]> h5)).
  { unfold Warehouse.add_worker, wlist_append. simpl. by rewrite lookup_insert_eq. }
  set (h6 := set_wlists <[Warehouse.workers w := [ivan0]]> h5) in *.
  assert (Ha6 : objs h6 !! Order.product (Order.mk petr0 a 1) = Some laptop0).
  { simpl. rewrite lookup_insert_ne by done. apply lookup_insert_eq. }
  pose proof (process_order_enough h6 (Order.mk petr0 a 1) laptop0 Ha6 ltac:(simpl; lia))
    as Horder.
  simpl in Horder.
  set (laptop9 := Product.mk "Ноутбук" 75000%float 9).
  change (Product.with_quantity laptop0 (10 - 1)) with laptop9 in Horder.
  set (h7 := set_objs <[a := laptop9]> h6) in *.
  set (store := EStore.mk "TechStore" [w] [petr0] [Order.mk petr0 a 1] []).
  assert (Ha7 : objs h7 !! a = Some laptop9) by (simpl; apply lookup_insert_eq).
  assert (Hb7 : objs h7 !! b = Some phone0).
  { simpl. rewrite lookup_insert_ne by done. apply lookup_insert_eq. }
  assert (Hps7 : plists h7 !! Warehouse.products w = Some [a; b])
    by (simpl; apply lookup_insert_eq).
  assert (Hws7 : wlists h7 !! Warehouse.workers w = Some [ivan0])
    by (simpl; apply lookup_insert_eq).
  assert (Hobjs7 : ∀ l o, objs h !! l = Some o → objs h7 !! l = Some o).
  { intros l o Hl. simpl. rewrite !lookup_insert_ne; [done|..]; intros E;
      rewrite <- E in Hl; congruence. }
  assert (Hplists7 : ∀ l xs, plists h !! l = Some xs → plists h7 !! l = Some xs).
  { intros l xs Hl. simpl. rewrite !lookup_insert_ne; [done|..]; intros E;
      rewrite <- E in Hl; congruence. }
  clearbody h7.
  assert (Hprod : products_of h7 w = Some [laptop9; phone0]).
  { unfold products_of. rewrite Hps7. simpl. by rewrite Ha7, Hb7. }
  assert (Hwrec : warehouse_records h7 (EStore.warehouses store)
                  = Some [("Москва", [laptop9; phone0], [ivan0])]).
  { unfold warehouse_records. simpl. rewrite Hprod. simpl. rewrite Hws7. simpl.
    by rewrite Hloc. }
  assert (Horec : order_records h7 (EStore.orders store) = Some [("Петр", "Ноутбук", 1%Z)]).
  { unfold order_records. simpl. by rewrite Ha7. }
  assert (Hsnap : snapshot h7 (EStore.warehouses store)
                  = Some [("Москва", [laptop9; phone0])]).
  { unfold snapshot. simpl. rewrite Hprod. simpl. by rewrite Hloc. }
  pose proof (save_to_json_run h7 store "estore_data.json" _ _ Hwrec Horec) as Hjson.
  simpl in Hjson.
  set (h8 := set_files <[ "estore_data.json" :=
               JsonDoc (store_record "TechStore" [("Москва", [laptop9; phone0], [ivan0])]
                          [petr0] [("Петр", "Ноутбук", 1%Z)])]> h7) in *.
  destruct (save_to_xml_run str_float h8 store "estore_data.xml" _ Hsnap)
    as (h9 & Hxml & Ho9 & Hl9 & Hw9 & Hf9).
  exists store, h9, w, a, b. split.
  { unfold main.
    assert (Hstore : EStore.__init__ "TechStore" h = Some (Return (EStore.mk "TechStore" [] [] [] []), h))
      by reflexivity.
    rewrite (bind_return _ _ _ _ _ Hstore).
    rewrite (bind_return _ _ _ _ _ Hinit), (bind_return _ _ _ _ _ Hnew_a).
    rewrite (bind_return _ _ _ _ _ Hnew_b), (bind_return _ _ _ _ _ Hadd_a).
    rewrite (bind_return _ _ _ _ _ Hadd_b), (bind_return _ _ _ _ _ Hadd_w).
    unfold EStore.add_warehouse, EStore.add_customer, EStore.add_order, Order.__init__.
    unfold bind at 1, ret at 1. unfold bind at 1, ret at 1.
    unfold bind at 1, ret at 1. unfold bind at 1, ret at 1.
    cbn [EStore.name EStore.warehouses EStore.customers EStore.orders EStore.workers app].
    rewrite (bind_return _ _ _ _ _ (try_except_StoreError_return _ _ _ Horder)).
    fold petr0 store.
    rewrite (bind_return _ _ _ _ _ Hjson), (bind_return _ _ _ _ _ Hxml). reflexivity. }
  split; [reflexivity|]. split; [exact Hloc|].
  rewrite Ho9, Hl9, Hw9, Hf9.
  split; [exact Hps7|]. split; [exact Hws7|]. split; [exact Ha7|]. split; [exact Hb7|].
  split; [simpl; by rewrite lookup_insert_ne, lookup_insert_eq|].
  split; [simpl; apply lookup_insert_eq|].
  split; [exact Hobjs7|exact Hplists7].
Qed.

(** ** The two formats side by side *)

Lemma snapshot_of_warehouse_records h ws wcontent :
  warehouse_records h ws = Some wcontent → snapshot h ws = Some (map fst wcontent).
Proof.
  unfold warehouse_records, snapshot. intros Hws.
  apply mapM_Some_2. change (map fst wcontent) with (fst <$> wcontent).
  apply Forall2_fmap_r. apply mapM_Some_1 in Hws.
  eapply Forall2_impl; [exact Hws|]. intros w [[loc0 ps] wrs] Hw. simpl in *.
  apply bind_Some in Hw as (ps' & Hps & Hw).
  apply bind_Some in Hw as (wrs' & _ & [= <- <- <-]). by rewrite Hps.
Qed.

(** X16: the two exports describe the same inventory.  Whenever the record
    export can be written, the markup export can be written as well, and its
    warehouses and products are those of the record export, in the same
    order, without the workers; customers and orders appear in the record
    export alone. *)
Theorem exports_agree_on_the_inventory
    (str_float : float → string) (h : Heap) (s : EStore.t) (json_name xml_name : string)
    (wcontent : list (string * list Product.t * list Worker.t))
    (ocontent : list (string * string * Z)) :
  warehouse_records h (EStore.warehouses s) = Some wcontent →
  order_records h (EStore.orders s) = Some ocontent →
  json_name ≠ xml_name →
  ∃ h',
    (EStore.save_to_json s json_name ;;; EStore.save_to_xml str_float s xml_name) h
      = Some (Return tt, h')
    ∧ files h' !! json_name =
        Some (JsonDoc (PyDict
          [("name", PyStr (EStore.name s));
           ("warehouses", PyList (map warehouse_record wcontent));
           ("customers", PyList (map customer_record (EStore.customers s)));
           ("orders", PyList (map order_record ocontent))]))
    ∧ files h' !! xml_name =
        Some (XmlDoc (Node "estore" [("name", EStore.name s)]
                        (map (λ w, warehouse_node str_float (w.1.1, w.1.2)) wcontent))).
Proof.
  intros Hw Ho Hne.
  pose proof (save_to_json_run h s json_name wcontent ocontent Hw Ho) as Hj.
  pose proof (snapshot_of_warehouse_records _ _ _ Hw) as Hsnap.
  destruct (save_to_xml_run str_float _ s xml_name (map fst wcontent)
              (Hsnap : snapshot (set_files <[json_name :=
                 JsonDoc (store_record (EStore.name s) wcontent (EStore.customers s)
                            ocontent)]> h) (EStore.warehouses s) = Some (map fst wcontent)))
    as (h' & Hrun & _ & _ & _ & Hf).
  exists h'. split; [by rewrite (bind_return _ _ _ _ _ Hj)|].
  rewrite Hf. simpl.
  split; [by rewrite lookup_insert_ne, lookup_insert_eq|].
  rewrite lookup_insert_eq. unfold store_node. do 3 f_equal.
  rewrite map_map. apply map_ext. by intros [[loc0 ps] wrs].
Qed.

Lemma exports_agree_on_the_inventory_witness :
  ∃ h',
    (EStore.save_to_json demo_store "estore_data.json" ;;;
     EStore.save_to_xml demo_str_float demo_store "estore_data.xml") demo_heap
      = Some (Return tt, h')
    ∧ files h' !! "estore_data.json" =
        Some (JsonDoc (PyDict
          [("name", PyStr "TechStore");
           ("warehouses", PyList (map warehouse_record [("Moscow", [laptop; phone], [ivan])]));
           ("customers", PyList (map customer_record [petr]));
           ("orders", PyList (map order_record [("Petr", "Laptop", 1%Z)]))]))
    ∧ files h' !! "estore_data.xml" =
        Some (XmlDoc (Node "estore" [("name", "TechStore")]
                        (map (λ w, warehouse_node demo_str_float (w.1.1, w.1.2))
                           [("Moscow", [laptop; phone], [ivan])]))).
Proof.
  apply (exports_agree_on_the_inventory demo_str_float demo_heap demo_store
           "estore_data.json" "estore_data.xml"
           [("Moscow", [laptop; phone], [ivan])] [("Petr", "Laptop", 1%Z)]);
    [reflexivity | reflexivity | discriminate].
Defined.
